(** * Bookstore backend: a shallow embedding of [app/main_enhanced.py] and
    [test_ingestion.py], and the properties of its listing, auth and
    ingestion logic.

    Python dictionaries are finite maps from strings to values, MongoDB
    collections are lists of documents in natural order, exceptions are an
    error monad.  What the program delegates to libraries whose results the
    logic never inspects (regular expressions, HMAC, bcrypt, the rendering of
    numbers by [str]) is a field of [Runtime]. *)

From Stdlib Require Import ZArith QArith String Ascii List Lia.
From stdpp Require Import base option gmap strings list fin_maps.

Local Open Scope string_scope.
Local Open Scope Z_scope.

(** ** Python values and exceptions *)

Module Py.

(** The values that occur in stored documents: [None], strings, numbers
    (finite floats and ints are rationals), BSON object ids, datetimes
    (seconds) and lists of strings (the [images] arrays). *)
Inductive value : Type :=
| VNone
| VStr (s : string)
| VNum (q : Q)
| VOid (h : string)
| VDate (t : Z)
| VList (l : list string).

Abbreviation dict := (gmap string value).

Inductive exn : Type :=
| HTTPException (status_code : Z) (detail : string)
| KeyError (key : string)
| TypeError
| IndexError
| AttributeError
| InvalidId
| DuplicateKeyError
| Exception (message : string).

Inductive result (A : Type) : Type :=
| Ok (a : A)
| Raise (e : exn).
Arguments Ok {A} a.
Arguments Raise {A} e.

#[export] Instance result_ret : MRet result := fun _ a => Ok a.
#[export] Instance result_bind : MBind result := fun _ _ f m =>
  match m with Ok a => f a | Raise e => Raise e end.

(** [for x in xs: body] where the body may raise. *)
Fixpoint for_each {A B} (f : A -> result B) (xs : list A) : result (list B) :=
  match xs with
  | [] => Ok []
  | x :: xs' => y ← f x; ys ← for_each f xs'; Ok (y :: ys)
  end.

(** [d[k]] *)
Definition getitem (d : dict) (k : string) : result value :=
  match d !! k with Some v => Ok v | None => Raise (KeyError k) end.

(** [d.get(k, dflt)] and [d.get(k)] *)
Definition get (d : dict) (k : string) (dflt : value) : value :=
  default dflt (d !! k).
Definition get_none (d : dict) (k : string) : value := get d k VNone.

(** [k in d] *)
Definition contains (d : dict) (k : string) : bool :=
  match d !! k with Some _ => true | None => false end.

(** Truth value of [if v:]. *)
Definition truthy (v : value) : bool :=
  match v with
  | VNone => false
  | VStr s => negb (String.eqb s "")
  | VNum q => negb (Qeq_bool q 0)
  | VOid _ => true
  | VDate _ => true
  | VList l => match l with [] => false | _ => true end
  end.

(** [if s:] on an [Optional[str]] parameter. *)
Definition truthy_str (o : option string) : option string :=
  match o with
  | Some s => if String.eqb s "" then None else Some s
  | None => None
  end.

(** [v[0]]: first character of a string, first element of a list; an empty
    sequence has no first element, and [None], numbers, ids and datetimes are
    not subscriptable. *)
Definition subscript0 (v : value) : result value :=
  match v with
  | VStr (String c _) => Ok (VStr (String c ""))
  | VList (x :: _) => Ok (VStr x)
  | VStr EmptyString | VList [] => Raise IndexError
  | VNone | VNum _ | VOid _ | VDate _ => Raise TypeError
  end.

(** [v == s] for a string literal [s]. *)
Definition eq_str (v : value) (s : string) : bool :=
  match v with VStr s' => String.eqb s' s | _ => false end.

(** [needle in haystack] on strings. *)
Fixpoint substring_of (needle hay : string) : bool :=
  String.prefix needle hay ||
  match hay with
  | EmptyString => false
  | String _ hay' => substring_of needle hay'
  end.

End Py.
Export Py.

(** ** BSON object ids *)

Module Bson.

Definition is_digit (c : ascii) : bool :=
  let n := nat_of_ascii c in (48 <=? n)%nat && (n <=? 57)%nat.
Definition is_lower_hex (c : ascii) : bool :=
  let n := nat_of_ascii c in is_digit c || (97 <=? n)%nat && (n <=? 102)%nat.
Definition is_upper_hex (c : ascii) : bool :=
  let n := nat_of_ascii c in (65 <=? n)%nat && (n <=? 70)%nat.
Definition is_hex (c : ascii) : bool := is_lower_hex c || is_upper_hex c.

Definition hex_lower (c : ascii) : ascii :=
  if is_upper_hex c then ascii_of_nat (nat_of_ascii c + 32) else c.

Fixpoint string_forall (p : ascii -> bool) (s : string) : bool :=
  match s with
  | EmptyString => true
  | String c s' => p c && string_forall p s'
  end.

Fixpoint string_map (f : ascii -> ascii) (s : string) : string :=
  match s with
  | EmptyString => EmptyString
  | String c s' => String (f c) (string_map f s')
  end.

(** A well-formed identifier: 24 hexadecimal digits. *)
Definition well_formed (s : string) : bool :=
  (String.length s =? 24)%nat && string_forall is_hex s.

(** The rendering [str(oid)] of an object id: 24 lower-case digits. *)
Definition canonical (h : string) : bool :=
  (String.length h =? 24)%nat && string_forall is_lower_hex h.

(** [ObjectId(s)]: the id is kept as its lower-case rendering, so that two
    ids are equal when their twelve bytes are.  A string whose length is not
    24 is refused by the library as it is here.  Among the strings of
    length 24 the library reads the digits with [bytes.fromhex], which
    passes over blanks: such a string, refused here, is to the library an
    id of fewer than twelve bytes, the id of no document.  The two agree on
    every string without blanks. *)
Definition ObjectId (s : string) : result string :=
  if well_formed s then Ok (string_map hex_lower s) else Raise InvalidId.

End Bson.
Export Bson.


(** ** JSON web tokens: the data *)

Module Jwt.

(** The claims [create_token] signs. *)
Record payload : Type := { sub : string; role : value; exp : Z }.

(** A bearer credential as received: either something that does not parse
    as a token, or a payload with a signature. *)
Inductive token : Type :=
| Garbled (s : string)
| Signed (p : payload) (signature : string).

Inductive error : Type :=
| ExpiredSignatureError
| InvalidTokenError.

End Jwt.

(** ** What the libraries compute *)

Class Runtime : Type := {
  (** [str(v)] for a number, a datetime or a list *)
  repr : value -> string;
  (** a case-insensitive regular-expression search of a pattern in a string *)
  regex_search_i : string -> string -> bool;
  (** the value of the environment's [SECRET_KEY], or the built-in default *)
  SECRET_KEY : string;
  (** the HS256 signature of a payload under a key *)
  HS256 : string -> Jwt.payload -> string;
  (** [bcrypt.hashpw(password, salt)] and [bcrypt.checkpw(password, hash)] *)
  hashpw : string -> string -> string;
  checkpw : string -> string -> bool;
  (** the name [f"{timestamp}_{filename}"] of a stored upload *)
  upload_name : Z -> string -> string
}.

(** [str(v)] *)
Definition str `{Runtime} (v : value) : string :=
  match v with
  | VStr s => s
  | VOid h => h
  | VNone => "None"
  | VNum _ | VDate _ | VList _ => repr v
  end.

(** ** The document store *)

Module Mongo.

Abbreviation collection := (list dict).

(** The entries of a query document. *)
Inductive clause : Type :=
| IdEq (h : string)                          (* {"_id": ObjectId(h)} *)
| FieldEq (k : string) (s : string)          (* {k: s} *)
| FieldRange (k : string) (gte lte : option Q) (* {k: {"$gte": a, "$lte": b}} *)
| OrRegex (ks : list string) (pat : string). (* {"$or": [{k: {"$regex": pat, "$options": "i"}}, ...]} *)

Definition has_id (h : string) (d : dict) : bool :=
  match d !! "_id" with Some (VOid h') => String.eqb h' h | _ => false end.

(** A string matches a field that holds it, or an array that contains it. *)
Definition matches_str (s : string) (v : value) : bool :=
  match v with
  | VStr s' => String.eqb s' s
  | VList l => existsb (fun s' => String.eqb s' s) l
  | _ => false
  end.

Definition matches_regex `{Runtime} (pat : string) (v : value) : bool :=
  match v with
  | VStr s => regex_search_i pat s
  | VList l => existsb (regex_search_i pat) l
  | _ => false
  end.

(** Comparison with a number only matches numbers: strings, [None] and
    arrays of strings are of another type bracket. *)
Definition matches_range (gte lte : option Q) (v : value) : bool :=
  match v with
  | VNum q =>
      match gte with Some a => Qle_bool a q | None => true end &&
      match lte with Some b => Qle_bool q b | None => true end
  | _ => false
  end.

Definition field_matches (p : value -> bool) (d : dict) (k : string) : bool :=
  match d !! k with Some v => p v | None => false end.

Definition matches_clause `{Runtime} (d : dict) (c : clause) : bool :=
  match c with
  | IdEq h => has_id h d
  | FieldEq k s => field_matches (matches_str s) d k
  | FieldRange k gte lte => field_matches (matches_range gte lte) d k
  | OrRegex ks pat => existsb (field_matches (matches_regex pat) d) ks
  end.

Definition matches `{Runtime} (query : list clause) (d : dict) : bool :=
  forallb (matches_clause d) query.

Definition find `{Runtime} (c : collection) (query : list clause) : list dict :=
  List.filter (matches query) c.

Definition find_one `{Runtime} (c : collection) (query : list clause) : option dict :=
  List.find (matches query) c.

(** [cursor.limit(n)]: 0 is no limit, a negative limit counts as its
    absolute value. *)
Definition limit (n : Z) (l : list dict) : list dict :=
  if n =? 0 then l else firstn (Z.abs_nat n) l.

(** [insert_one(doc)] for a document without [_id]: the driver assigns the
    fresh id [new_id]; the unique index on [_id] rejects a duplicate.  The
    store keeps a date to the millisecond; dates are counted here in whole
    seconds, on which that is the identity, so a date read back is equal to
    the one written only up to that cut. *)
Definition insert_one (c : collection) (doc : dict) (new_id : string)
  : result (collection * string) :=
  if existsb (has_id new_id) c then Raise DuplicateKeyError
  else Ok ((c ++ [<["_id" := VOid new_id]> doc])%list, new_id).

Fixpoint update_first (p : dict -> bool) (f : dict -> dict) (c : collection) : collection :=
  match c with
  | [] => []
  | d :: c' => if p d then f d :: c' else d :: update_first p f c'
  end.

Fixpoint remove_first (p : dict -> bool) (c : collection) : collection :=
  match c with
  | [] => []
  | d :: c' => if p d then c' else d :: remove_first p c'
  end.

(** [update_one(query, {"$set": fields})]: the given fields replace those of
    the first matching document, the others stay; no field, no change. *)
Definition update_one `{Runtime} (c : collection) (query : list clause) (fields : dict)
  : collection :=
  update_first (matches query) (fun d => fields ∪ d) c.

Definition delete_one `{Runtime} (c : collection) (query : list clause) : collection :=
  remove_first (matches query) c.

End Mongo.
Export Mongo.

(** ** [app/main_enhanced.py] *)

Module App.

(** The two collections of [bookstore_db] and the [uploads] directory
    (file name to content). *)
Record state : Type := {
  users_collection : collection;
  books_collection : collection;
  uploads : gmap string string
}.

Definition with_users (st : state) (c : collection) : state :=
  {| users_collection := c; books_collection := books_collection st; uploads := uploads st |}.
Definition with_books (st : state) (c : collection) : state :=
  {| users_collection := users_collection st; books_collection := c; uploads := uploads st |}.
Definition with_uploads (st : state) (fs : gmap string string) : state :=
  {| users_collection := users_collection st; books_collection := books_collection st; uploads := fs |}.

(** A request handler: it returns or raises, and leaves a state behind in
    both cases. *)
Definition handler (A : Type) : Type := state -> result A * state.

#[export] Instance handler_ret : MRet handler := fun _ a st => (Ok a, st).
#[export] Instance handler_bind : MBind handler := fun _ _ f m st =>
  match m st with
  | (Ok a, st') => f a st'
  | (Raise e, st') => (Raise e, st')
  end.

Definition lift {A} (r : result A) : handler A := fun st => (r, st).
Definition raise {A} (e : exn) : handler A := lift (Raise e).
Definition gets {A} (f : state -> A) : handler A := fun st => (Ok (f st), st).
Definition modify (f : state -> state) : handler unit := fun st => (Ok tt, f st).

Definition seven_days : Z := 7 * 24 * 60 * 60.

(** [jwt.encode(payload, key, algorithm="HS256")] *)
Definition jwt_encode `{Runtime} (p : Jwt.payload) (key : string) : Jwt.token :=
  Jwt.Signed p (HS256 key p).

(** [jwt.decode(token, key, algorithms=["HS256"])] at time [now]: the
    signature is checked first, then the expiry. *)
Definition jwt_decode `{Runtime} (now : Z) (t : Jwt.token) (key : string)
  : Jwt.error + Jwt.payload :=
  match t with
  | Jwt.Garbled _ => inl Jwt.InvalidTokenError
  | Jwt.Signed p sg =>
      if String.eqb sg (HS256 key p) then
        if Jwt.exp p <=? now then inl Jwt.ExpiredSignatureError else inr p
      else inl Jwt.InvalidTokenError
  end.

Definition create_token `{Runtime} (user_id : string) (role : value) (now : Z) : Jwt.token :=
  let payload := {| Jwt.sub := user_id; Jwt.role := role; Jwt.exp := now + seven_days |} in
  jwt_encode payload SECRET_KEY.

Definition verify_token `{Runtime} (users : collection) (now : Z) (credentials : Jwt.token)
  : result dict :=
  match jwt_decode now credentials SECRET_KEY with
  | inr payload =>
      let user_id := Jwt.sub payload in
      oid ← ObjectId user_id;
      match find_one users [IdEq oid] with
      | None => Raise (HTTPException 401 "User not found")
      | Some user =>
          i ← getitem user "_id";
          Ok (<["_id" := VStr (str i)]> user)
      end
  | inl Jwt.ExpiredSignatureError => Raise (HTTPException 401 "Token expired")
  | inl Jwt.InvalidTokenError => Raise (HTTPException 401 "Invalid token")
  end.

Definition require_admin (current_user : dict) : result dict :=
  if negb (eq_str (get_none current_user "role") "admin")
  then Raise (HTTPException 403 "Admin access required")
  else Ok current_user.

(** The body of [POST /auth/register] and [POST /auth/login]. *)
Record auth_response : Type := { token : Jwt.token; user : dict }.

Definition public_user (user_id : string) (name email role : value) : dict :=
  <["role" := role]> (<["email" := email]> (<["name" := name]> (<["id" := VStr user_id]> ∅))).

Definition register `{Runtime} (name email password role : string)
    (now : Z) (salt new_id : string) : handler auth_response :=
  users ← gets users_collection;
  match find_one users [FieldEq "email" email] with
  | Some _ => raise (HTTPException 400 "Email already registered")
  | None =>
      if negb (String.eqb role "user" || String.eqb role "admin") then
        raise (HTTPException 400 "Invalid role")
      else
        let hashed_password := hashpw password salt in
        let user : dict :=
          <["created_at" := VDate now]> (<["role" := VStr role]>
          (<["password" := VStr hashed_password]> (<["email" := VStr email]>
          (<["name" := VStr name]> ∅)))) in
        '(users', inserted_id) ← lift (insert_one users user new_id);
        modify (fun st => with_users st users');;
        let user_id := str (VOid inserted_id) in
        let token := create_token user_id (VStr role) now in
        mret {| token := token;
                user := public_user user_id (VStr name) (VStr email) (VStr role) |}
  end.

(** [s.encode("utf-8")]: only a string has the method. *)
Definition encode_utf8 (v : value) : result string :=
  match v with VStr s => Ok s | _ => Raise AttributeError end.

Definition login `{Runtime} (email password role : string) (now : Z)
  : handler auth_response :=
  users ← gets users_collection;
  match find_one users [FieldEq "email" email] with
  | None => raise (HTTPException 401 "Invalid credentials")
  | Some user =>
      stored ← lift (getitem user "password" ≫= encode_utf8);
      if negb (checkpw password stored) then
        raise (HTTPException 401 "Invalid credentials")
      else if negb (eq_str (get_none user "role") role) then
        raise (HTTPException 403 "Invalid role for this account")
      else
        i ← lift (getitem user "_id");
        let user_id := str i in
        r ← lift (getitem user "role");
        let token := create_token user_id r now in
        n ← lift (getitem user "name");
        e ← lift (getitem user "email");
        r' ← lift (getitem user "role");
        mret {| token := token; user := public_user user_id n e r' |}
  end.

(** *** Listings *)

Definition price_clause (priceRange : string) : list clause :=
  if String.eqb priceRange "0-20" then [FieldRange "price" (Some 0%Q) (Some 20%Q)]
  else if String.eqb priceRange "20-50" then [FieldRange "price" (Some 20%Q) (Some 50%Q)]
  else if String.eqb priceRange "50-100" then [FieldRange "price" (Some 50%Q) (Some 100%Q)]
  else if String.eqb priceRange "100+" then [FieldRange "price" (Some 100%Q) None]
  else [].

(** The [query] dictionary of [get_books], entry by entry. *)
Definition build_query (search category condition priceRange : option string)
  : list clause :=
  (match truthy_str search with
   | Some s => [OrRegex ["title"; "author"] s] | None => [] end ++
   match truthy_str category with
   | Some c => [FieldEq "category" c] | None => [] end ++
   match truthy_str condition with
   | Some c => [FieldEq "condition" c] | None => [] end ++
   match truthy_str priceRange with
   | Some r => price_clause r | None => [] end)%list.

(** [book["_id"] = str(book["_id"])] *)
Definition stringify_id `{Runtime} (book : dict) : result dict :=
  i ← getitem book "_id";
  Ok (<["_id" := VStr (str i)]> book).

(** [book["images"][0] if book["images"] else None] *)
Definition first_image (book : dict) : result value :=
  images ← getitem book "images";
  if truthy images then subscript0 images else Ok VNone.

(** The block "Map old schema to new schema" of [get_books]. *)
Definition map_old_schema (book : dict) : result dict :=
  let book :=
    if negb (contains book "title") && contains book "Book Name"
    then <["title" := get book "Book Name" (VStr "Untitled")]> book else book in
  let book :=
    if negb (contains book "author")
    then <["author" := get book "Publisher" (VStr "Unknown")]> book else book in
  let book :=
    if negb (contains book "price")
    then <["price" := get book "Price" (VNum 0)]> book else book in
  if negb (contains book "image") && contains book "images"
  then image ← first_image book; Ok (<["image" := image]> book)
  else Ok book.

(** The block "Map old schema" of [get_book]. *)
Definition map_old_schema_one (book : dict) : result dict :=
  let book :=
    if negb (contains book "title")
    then <["title" := get book "Book Name" (VStr "Untitled")]> book else book in
  let book :=
    if negb (contains book "author")
    then <["author" := get book "Publisher" (VStr "Unknown")]> book else book in
  if negb (contains book "image") && contains book "images"
  then image ← first_image book; Ok (<["image" := image]> book)
  else Ok book.

Definition get_books `{Runtime} (books : collection)
    (search category condition priceRange : option string) (n : Z)
  : result (list dict) :=
  let query := build_query search category condition priceRange in
  for_each (fun book => stringify_id book ≫= map_old_schema)
           (limit n (find books query)).

Definition not_found : exn := HTTPException 404 "Book not found".

(** The [try] block of [get_book]. *)
Definition get_book_body `{Runtime} (books : collection) (book_id : string)
  : result dict :=
  oid ← ObjectId book_id;
  match find_one books [IdEq oid] with
  | None => Raise not_found
  | Some book => stringify_id book ≫= map_old_schema_one
  end.

(** [get_book]: whatever the block raises is answered by 404. *)
Definition get_book `{Runtime} (books : collection) (book_id : string)
  : result dict :=
  match get_book_body books book_id with
  | Ok book => Ok book
  | Raise _ => Raise not_found
  end.

Record upload_file : Type := { filename : string; content : string }.

(** The block that stores an uploaded image and yields its URL. *)
Definition save_image `{Runtime} (now : Z) (image : upload_file) : handler string :=
  let name := upload_name now (filename image) in
  modify (fun st => with_uploads st (<[name := content image]> (uploads st)));;
  mret ("/uploads/" +:+ name).

Definition opt_str (o : option string) : value :=
  match o with Some s => VStr s | None => VNone end.

Definition upload_book `{Runtime} (title author : string) (price : Q)
    (category condition : string) (description isbn : option string)
    (image : option upload_file) (current_user : dict)
    (now : Z) (new_id : string) : handler dict :=
  image_url ← match image with
              | Some f => url ← save_image now f; mret (VStr url)
              | None => mret VNone
              end;
  sellerId ← lift (getitem current_user "id");
  sellerEmail ← lift (getitem current_user "email");
  sellerName ← lift (getitem current_user "name");
  let book : dict :=
    <["created_at" := VDate now]> (<["status" := VStr "active"]>
    (<["sellerName" := sellerName]> (<["sellerEmail" := sellerEmail]>
    (<["sellerId" := sellerId]> (<["image" := image_url]>
    (<["isbn" := opt_str isbn]> (<["description" := opt_str description]>
    (<["condition" := VStr condition]> (<["category" := VStr category]>
    (<["price" := VNum price]> (<["author" := VStr author]>
    (<["title" := VStr title]> ∅)))))))))))) in
  books ← gets books_collection;
  '(books', inserted_id) ← lift (insert_one books book new_id);
  modify (fun st => with_books st books');;
  mret (<["_id" := VStr (str (VOid inserted_id))]> book).

(** The check "ownership or admin" shared by [update_book] and
    [delete_book]: [True] when the request is refused. *)
Definition not_authorized `{Runtime} (book current_user : dict) : result bool :=
  r ← getitem current_user "role";
  if negb (eq_str r "admin") then
    i ← getitem current_user "id";
    Ok (negb (eq_str i (str (get_none book "sellerId"))))
  else Ok false.

Definition set_if_truthy (k : string) (o : option string) (update_data : dict) : dict :=
  match truthy_str o with
  | Some s => <[k := VStr s]> update_data
  | None => update_data
  end.

Definition update_book `{Runtime} (book_id : string)
    (title author : option string) (price : option Q)
    (category condition description status : option string)
    (image : option upload_file) (current_user : dict) (now : Z) : handler dict :=
  oid ← lift (ObjectId book_id);
  books ← gets books_collection;
  match find_one books [IdEq oid] with
  | None => raise not_found
  | Some book =>
      refused ← lift (not_authorized book current_user);
      if (refused : bool) then raise (HTTPException 403 "Not authorized")
      else
        let update_data : dict := ∅ in
        let update_data := set_if_truthy "title" title update_data in
        let update_data := set_if_truthy "author" author update_data in
        let update_data :=
          match price with
          | Some p => <["price" := VNum p]> update_data
          | None => update_data
          end in
        let update_data := set_if_truthy "category" category update_data in
        let update_data := set_if_truthy "condition" condition update_data in
        let update_data := set_if_truthy "description" description update_data in
        let update_data := set_if_truthy "status" status update_data in
        update_data ← match image with
                      | Some f =>
                          url ← save_image now f;
                          mret (<["image" := VStr url]> update_data)
                      | None => mret update_data
                      end;
        modify (fun st =>
          with_books st (update_one (books_collection st) [IdEq oid] update_data));;
        books' ← gets books_collection;
        match find_one books' [IdEq oid] with
        | None => raise TypeError
        | Some updated_book => lift (stringify_id updated_book)
        end
  end.

Definition delete_book `{Runtime} (book_id : string) (current_user : dict)
  : handler string :=
  oid ← lift (ObjectId book_id);
  books ← gets books_collection;
  match find_one books [IdEq oid] with
  | None => raise not_found
  | Some book =>
      refused ← lift (not_authorized book current_user);
      if (refused : bool) then raise (HTTPException 403 "Not authorized")
      else
        modify (fun st =>
          with_books st (delete_one (books_collection st) [IdEq oid]));;
        mret "Book deleted successfully"
  end.

End App.

(** ** [test_ingestion.py] *)

Module Ingestion.

(** A spreadsheet row maps column names to cells; a blank cell is [VNone]
    until [fillna] replaces it. *)
Abbreviation row := (gmap string value).

Definition fillna (sentinel : string) (df : list row) : list row :=
  map (fmap (fun v => match v with VNone => VStr sentinel | _ => v end)) df.

Definition is_upper (c : ascii) : bool :=
  let n := nat_of_ascii c in (65 <=? n)%nat && (n <=? 90)%nat.
Definition to_lower (c : ascii) : ascii :=
  if is_upper c then ascii_of_nat (nat_of_ascii c + 32) else c.
Definition is_space (c : ascii) : bool :=
  let n := nat_of_ascii c in
  (9 <=? n)%nat && (n <=? 13)%nat || (28 <=? n)%nat && (n <=? 32)%nat.

(** [s.lower()], on ASCII letters *)
Definition lower (s : string) : string := string_map to_lower s.

Fixpoint lstrip (s : string) : string :=
  match s with
  | String c s' => if is_space c then lstrip s' else s
  | EmptyString => EmptyString
  end.

Fixpoint rstrip (s : string) : string :=
  match s with
  | String c s' =>
      match rstrip s' with
      | EmptyString => if is_space c then EmptyString else String c EmptyString
      | t => String c t
      end
  | EmptyString => EmptyString
  end.

(** [s.strip()] *)
Definition strip (s : string) : string := rstrip (lstrip s).

(** [s.replace(" ", "-")] *)
Definition replace_space (s : string) : string :=
  string_map (fun c => if Ascii.eqb c " " then "-"%char else c) s.

Record attributes : Type := { school_tags : list string; class : value }.

Record document : Type := {
  category_type : string;
  sub_category_type : value;
  publisher : value;
  board : value;
  title : string;
  price : value;
  sku : value;
  images : list value;
  attrs : attributes;
  source : string;
  last_updated : Z
}.

(** The keyword logic of the loop body. *)
Definition derive_board (r : row) (book_title : string) : value :=
  let board := get r "Board" (VStr "General") in
  if eq_str board "N/A" then
    if substring_of "Sindh" book_title then VStr "Sindh Board"
    else if substring_of "Punjab" book_title then VStr "Punjab Board"
    else board
  else board.

(** The body of the loop over [df.iterrows()]. *)
Definition make_document `{Runtime} (source_name : string) (now : Z) (r : row)
  : document :=
  let book_title := str (get r "Book Name" (get r "Book_Name" (VStr "No Title"))) in
  let board := derive_board r book_title in
  {| category_type := "coursebook";
     sub_category_type := get r "Sub Category" (VStr "General");
     publisher := get r "Publisher" (VStr "Unknown");
     board := board;
     title := book_title;
     price := get r "Price" (VNum 0);
     sku := get r "SKU" (VStr "N/A");
     images := [get r "Image URL" (get r "Image_URL" (VStr ""))];
     attrs := {| school_tags :=
                   [replace_space (strip (lower (str (get r "School" (VStr "General")))))];
                 class := get r "Class" (VStr "General") |};
     source := source_name;
     last_updated := now |}.

(** What the script reads and writes: the spreadsheet reader, and the
    store's bulk insert, which leaves a collection behind and may report a
    failure. *)
Record world : Type := {
  read_excel : string -> result (list row);
  insert_many : list document -> list document -> list document * option exn
}.

Inductive message : Type :=
| Processing (source_name : string)
| Uploaded (count : nat) (source_name : string)
| Failed (source_name : string) (e : exn).

Record state : Type := { inventory : list document; stdout : list message }.

(** [print(...)], which is taken to succeed. *)
Definition print (m : message) (st : state) : state :=
  {| inventory := inventory st; stdout := (stdout st ++ [m])%list |}.

(** The [try] block of [run_full_ingestion]: the state it leaves, and the
    exception if one was raised. *)
Definition ingest `{Runtime} (w : world) (now : Z) (file_path source_name : string)
    (st : state) : state * option exn :=
  let st := print (Processing source_name) st in
  match read_excel w file_path with
  | Raise e => (st, Some e)
  | Ok frame =>
      let df := fillna "N/A" frame in
      let records := map (make_document source_name now) df in
      match records with
      | [] => (st, None)
      | _ :: _ =>
          match insert_many w (inventory st) records with
          | (inv, Some e) => ({| inventory := inv; stdout := stdout st |}, Some e)
          | (inv, None) =>
              (print (Uploaded (length records) source_name)
                     {| inventory := inv; stdout := stdout st |}, None)
          end
      end
  end.

(** [run_full_ingestion]: [except Exception as e] prints and returns. *)
Definition run_full_ingestion `{Runtime} (w : world) (now : Z)
    (file_path source_name : string) (st : state) : state :=
  match ingest w now file_path source_name st with
  | (st', None) => st'
  | (st', Some e) => print (Failed source_name e) st'
  end.

(** A run over a sequence of (file, source) batches, one call after the
    other. *)
Definition run_batches `{Runtime} (w : world) (now : Z)
    (batches : list (string * string)) (st : state) : state :=
  fold_left (fun st b => run_full_ingestion w now b.1 b.2 st) batches st.

(** The three calls at the end of the script. *)
Definition main `{Runtime} (w : world) (now : Z) (st : state) : state :=
  let st := run_full_ingestion w now "Katib books.xlsx" "katib.pk" st in
  let st := run_full_ingestion w now "Tariq books.xlsx" "tariqbookstore.com" st in
  run_full_ingestion w now "Idris books.xlsx" "idrisbookbank.com" st.

Definition attempted (out : list message) : list string :=
  omap (fun m => match m with Processing s => Some s | _ => None end) out.

End Ingestion.

(** ** The schema normalizer as the specification words it *)

Module Spec.

Definition set_if_absent (k : string) (v : value) (doc : dict) : dict :=
  if contains doc k then doc else <[k := v]> doc.

(** Each canonical field is filled only when absent: [title] from
    [Book Name] else "Untitled", [author] from [Publisher] else "Unknown",
    [price] from [Price] else 0, [image] from the first element of a
    non-empty [images] list, else it stays absent. *)
Definition normalize (doc : dict) : dict :=
  let title := get doc "Book Name" (VStr "Untitled") in
  let author := get doc "Publisher" (VStr "Unknown") in
  let price := get doc "Price" (VNum 0) in
  let out := set_if_absent "title" title doc in
  let out := set_if_absent "author" author out in
  let out := set_if_absent "price" price out in
  match doc !! "images" with
  | Some (VList (first :: _)) => set_if_absent "image" (VStr first) out
  | _ => out
  end.

End Spec.

(** ** Well-formed collections and sample data *)

(** Every document carries an object id in canonical rendering, and no two
    documents share one: what the store's index on [_id] maintains. *)
Fixpoint well_formed_ids (c : collection) : bool :=
  match c with
  | [] => true
  | d :: c' =>
      match d !! "_id" with
      | Some (VOid h) => canonical h && negb (existsb (has_id h) c') && well_formed_ids c'
      | _ => false
      end
  end.

(** No stored user has a field named [id]: [register], the only writer of
    the collection, never sets one. *)
Definition no_id_field (c : collection) : Prop :=
  Forall (fun d : dict => d !! "id" = None) c.

(** The value that [first_image] computes from the [images] field. *)
Definition image_of (images : value) : result value :=
  if truthy images then subscript0 images else Ok VNone.

(** The fields that the four canonical rules leave alone. *)
Definition legacy_or_other (k : string) : Prop :=
  k <> "title" /\ k <> "author" /\ k <> "price" /\ k <> "image".

(** The [image] field of a view [out] of the stored document [d]: kept when
    stored, else computed from [images] when there is such a field. *)
Definition image_rule (d out : dict) : Prop :=
  match d !! "image", d !! "images" with
  | Some v, _ => out !! "image" = Some v
  | None, None => out !! "image" = None
  | None, Some images => exists v, image_of images = Ok v /\ out !! "image" = Some v
  end.

(** The document that [register] stores. *)
Definition user_document `{Runtime} (name email password role : string)
    (now : Z) (salt new_id : string) : dict :=
  <["_id" := VOid new_id]> (<["created_at" := VDate now]>
  (<["role" := VStr role]> (<["password" := VStr (hashpw password salt)]>
  (<["email" := VStr email]> (<["name" := VStr name]> ∅))))).

(** A token is issued at time [now] by a successful [register] or
    [login]. *)
Inductive issues `{Runtime} (now : Z) (st : App.state)
  : App.auth_response -> App.state -> Prop :=
| issues_register name email password role salt new_id resp st' :
    App.register name email password role now salt new_id st = (Ok resp, st') ->
    issues now st resp st'
| issues_login email password role resp st' :
    App.login email password role now st = (Ok resp, st') ->
    issues now st resp st'.

(** A document that has the four canonical fields. *)
Definition is_canonical (doc : dict) : bool :=
  contains doc "title" && contains doc "author" && contains doc "price" &&
  contains doc "image".

(** The [images] field, when there is one, is a list. *)
Definition images_well_typed (doc : dict) : Prop :=
  match doc !! "images" with
  | None | Some (VList _) => True
  | Some _ => False
  end.

(** A mapping [f] of stored documents produces the view that the
    specification describes. *)
Definition normalizes_as_specified (f : dict -> result dict) (doc : dict) : Prop :=
  f doc = Ok (Spec.normalize doc).

(** What both mappings of the program do to a stored document [doc]:
    nothing stored is changed, [author] and [title] are filled from
    [Publisher] and [Book Name], and [image] from the list [images], where an
    empty list gives [None]. *)
Definition view_by_design (doc out : dict) : Prop :=
  (forall k v, doc !! k = Some v -> out !! k = Some v) /\
  (forall k, legacy_or_other k -> out !! k = doc !! k) /\
  (doc !! "author" = None ->
   out !! "author" = Some (get doc "Publisher" (VStr "Unknown"))) /\
  (forall v, doc !! "title" = None -> doc !! "Book Name" = Some v ->
   out !! "title" = Some v) /\
  (doc !! "image" = None ->
   match doc !! "images" with
   | Some (VList (first :: _)) => out !! "image" = Some (VStr first)
   | Some (VList []) => out !! "image" = Some VNone
   | Some _ => True
   | None => out !! "image" = None
   end).

(** The listing has a numeric price between [lo] and [hi], [hi] if any. *)
Definition price_in (lo : Q) (hi : option Q) (book : dict) : Prop :=
  exists p : Q, book !! "price" = Some (VNum p) /\ (lo <= p)%Q /\
    match hi with Some h => (p <= h)%Q | None => True end.

Module Sample.

(** Stand-ins for the libraries, to evaluate the program on concrete
    requests. *)
Definition runtime : Runtime := {|
  repr := fun _ => "?";
  regex_search_i := fun pat s => substring_of pat s;
  SECRET_KEY := "your-secret-key-change-in-production";
  HS256 := fun key p => key +:+ "." +:+ Jwt.sub p;
  hashpw := fun password salt => salt +:+ "$" +:+ password;
  checkpw := fun password hashed => substring_of password hashed;
  upload_name := fun _ filename => filename
|}.

Definition ann_id : string := "65a1b2c3d4e5f60718293a4b".
Definition bob_id : string := "65a1b2c3d4e5f60718293a4c".
Definition book_id : string := "75a1b2c3d4e5f60718293a4d".
Definition legacy_id : string := "75a1b2c3d4e5f60718293a4e".

(** A listing of the canonical schema, sold by Bob. *)
Definition bobs_book : dict :=
  <["_id" := VOid book_id]> (<["title" := VStr "Algebra I"]>
  (<["author" := VStr "XYZ Press"]> (<["price" := VNum 15]>
  (<["image" := VNone]> (<["sellerId" := VStr bob_id]> ∅))))).

(** Ann as [register] stores her at time 0, the token she gets, and her
    document after a promotion to admin in the store. *)
Definition ann : dict :=
  user_document (H := runtime) "Ann" "ann@example.org" "secret" "user" 0 "salt" ann_id.
Definition ann_token : Jwt.token :=
  App.create_token (H := runtime) ann_id (VStr "user") 0.
Definition ann_payload : Jwt.payload :=
  {| Jwt.sub := ann_id; Jwt.role := VStr "user"; Jwt.exp := App.seven_days |}.
Definition ann_promoted : dict := <["role" := VStr "admin"]> ann.

Definition ann_response : App.auth_response :=
  {| App.token := ann_token;
     App.user := App.public_user ann_id (VStr "Ann") (VStr "ann@example.org")
                   (VStr "user") |}.

(** A store that holds Bob's listing, before and after Ann registers. *)
Definition shop : App.state :=
  {| App.users_collection := []; App.books_collection := [bobs_book];
     App.uploads := ∅ |}.
Definition shop_with_ann : App.state := App.with_users shop [ann].

(** Spreadsheet rows: a title that names Sindh and no [Board] column, the
    same with a blank [Board] cell, and a blank [Board] cell under a title
    that names no board. *)
Definition sindh_row : Ingestion.row := <["Book Name" := VStr "Sindh Board Math"]> ∅.
Definition sindh_row_blank : Ingestion.row := <["Board" := VNone]> sindh_row.
Definition plain_row_blank : Ingestion.row :=
  <["Board" := VNone]> (<["Book Name" := VStr "Algebra I"]> ∅).

(** A world where the second spreadsheet of the script cannot be read. *)
Definition world : Ingestion.world :=
  {| Ingestion.read_excel := fun file_path =>
       if String.eqb file_path "Tariq books.xlsx"
       then Raise (Exception "No such file or directory")
       else Ok [sindh_row];
     Ingestion.insert_many := fun inventory records => ((inventory ++ records)%list, None) |}.

Definition nothing : Ingestion.state :=
  {| Ingestion.inventory := []; Ingestion.stdout := [] |}.

(** A stored document with an empty [images] list and nothing else. *)
Definition no_images : dict := <["_id" := VOid book_id]> (<["images" := VList []]> ∅).

(** A listing of the legacy schema. *)
Definition legacy_book : dict :=
  <["_id" := VOid legacy_id]> (<["Book Name" := VStr "Algebra I"]>
  (<["Publisher" := VStr "XYZ Press"]> (<["Price" := VNum 15]>
  (<["images" := VList ["http://x/1.png"]]> ∅)))).

End Sample.

(** ** [app/main.py] *)

Module Main.

(** [list(collection.find({}, {"_id": 0}).limit(10))]: no condition, the
    projection drops [_id]. *)
Definition get_books `{Runtime} (c : collection) : list dict :=
  map (delete "_id") (limit 10 (find c [])).

End Main.

(** ** The routes' dependencies, and more sample data *)

(** [require_admin] as the framework resolves it: its argument is what
    [verify_token] returns for the request's credentials. *)
Definition current_admin `{Runtime} (users : collection) (now : Z)
    (credentials : Jwt.token) : result dict :=
  App.verify_token users now credentials ≫= App.require_admin.

(** The fields a request to [update_book] can set. *)
Definition updatable : list string :=
  ["title"; "author"; "price"; "category"; "condition"; "description"; "status";
   "image"].


(** A character of a normalized school tag: no upper-case letter, no
    space. *)
Definition tag_char (c : ascii) : bool :=
  negb (Ingestion.is_upper c) && negb (Ascii.eqb c " ").

Module More.

(** The shop after Bob registered as an admin. *)
Definition bob : dict :=
  user_document (H := Sample.runtime) "Bob" "bob@example.org" "hunter2" "admin" 0
    "salt" Sample.bob_id.
Definition shop_with_bob : App.state := App.with_users Sample.shop [bob].
Definition bob_response : App.auth_response :=
  {| App.token := App.create_token (H := Sample.runtime) Sample.bob_id (VStr "admin") 0;
     App.user := App.public_user Sample.bob_id (VStr "Bob") (VStr "bob@example.org")
                   (VStr "admin") |}.

(** Bob as [verify_token] resolves him. *)
Definition bob_identity : dict := <["_id" := VStr Sample.bob_id]> bob.


(** An identity that carries [id], as [upload_book] expects it. *)
Definition seller : dict :=
  <["id" := VStr Sample.bob_id]> (<["email" := VStr "bob@example.org"]>
  (<["name" := VStr "Bob"]> (<["role" := VStr "user"]> ∅))).

(** A world whose store rejects every bulk insert. *)
Definition read_only_world : Ingestion.world :=
  {| Ingestion.read_excel := fun _ => Ok [Sample.sindh_row];
     Ingestion.insert_many := fun inventory _ =>
       (inventory, Some (Exception "not writable")) |}.

End More.

(** * Properties *)

Import App.

(** Runs a handler written in the monad down to its matches. *)
Ltac run :=
  unfold mbind, handler_bind, mret, handler_ret, gets, lift, raise, modify in *;
  cbn beta iota zeta in *.

Section Basics.
Context `{Runtime}.

Lemma contains_true (d : dict) k : contains d k = true <-> is_Some (d !! k).
Proof. unfold contains. destruct (d !! k); [by eauto|]. split; [done|by intros [? ?]]. Qed.

Lemma contains_false (d : dict) k : contains d k = false <-> d !! k = None.
Proof. unfold contains. by destruct (d !! k). Qed.

Lemma matches_IdEq h (d : dict) : matches [IdEq h] d = has_id h d.
Proof. unfold matches. simpl. by rewrite andb_true_r. Qed.

Lemma has_id_spec h (d : dict) : has_id h d = true <-> d !! "_id" = Some (VOid h).
Proof.
  unfold has_id. destruct (d !! "_id") as [[]|]; try (split; [done|congruence]).
  rewrite String.eqb_eq. split; [by intros ->|congruence].
Qed.

Lemma find_one_id_found (c : collection) h (d : dict) :
  find_one c [IdEq h] = Some d -> d !! "_id" = Some (VOid h) /\ d ∈ c.
Proof.
  unfold find_one. intros Hf. apply find_some in Hf as [Hin Hm].
  rewrite matches_IdEq in Hm. split; [by apply has_id_spec|by apply list_elem_of_In].
Qed.

End Basics.

(** ** Lookup by id *)

Section GetBook.
Context `{Runtime}.


(** An id whose length is not 24 is refused whatever it holds. *)
Lemma ObjectId_wrong_length (s : string) :
  String.length s <> 24%nat -> ObjectId s = Raise InvalidId.
Proof.
  intros Hlen. unfold ObjectId, well_formed.
  by destruct (Nat.eqb_spec (String.length s) 24).
Qed.



End GetBook.


(** ** Search *)

Section Search.
Context `{Runtime}.

Lemma for_each_Forall2 {A B} (f : A -> result B) xs ys :
  for_each f xs = Ok ys -> Forall2 (fun x y => f x = Ok y) xs ys.
Proof.
  revert ys. induction xs as [|x xs IH]; simpl; intros ys Hys.
  - injection Hys as <-. constructor.
  - destruct (f x) as [y|] eqn:Hy; [|done]. simpl in Hys.
    destruct (for_each f xs) as [ys'|]; [|done]. simpl in Hys.
    injection Hys as <-. constructor; [done|by apply IH].
Qed.

Lemma stringify_id_other (book out : dict) k :
  stringify_id book = Ok out -> k <> "_id" -> out !! k = book !! k.
Proof.
  unfold stringify_id, getitem. destruct (book !! "_id"); [|done]. simpl.
  intros [= <-] Hk. by rewrite lookup_insert_ne.
Qed.

Lemma fill_keeps (d : dict) (b : bool) k' v' k v :
  (b = true -> d !! k' = None) -> d !! k = Some v ->
  (if b then <[k' := v']> d else d) !! k = Some v.
Proof.
  intros Hb Hk. destruct b; [|done].
  rewrite lookup_insert_ne; [done|]. intros ->. rewrite Hb in Hk; done.
Qed.

Lemma guard_absent (d : dict) k (b : bool) :
  negb (contains d k) && b = true -> d !! k = None.
Proof.
  intros [Hc _]%andb_true_iff. apply contains_false. by apply negb_true_iff.
Qed.

Lemma guard_absent' (d : dict) k : negb (contains d k) = true -> d !! k = None.
Proof. intros Hc. apply contains_false. by apply negb_true_iff. Qed.

Lemma fill_image_keeps (d out : dict) k v :
  (if negb (contains d "image") && contains d "images"
   then image ← first_image d; Ok (<["image" := image]> d) else Ok d) = Ok out ->
  d !! k = Some v -> out !! k = Some v.
Proof.
  destruct (negb _ && _) eqn:Hg.
  - destruct (first_image d); [|done]. simpl. intros [= <-] Hk.
    rewrite lookup_insert_ne; [done|]. intros <-.
    apply guard_absent in Hg. congruence.
  - by intros [= <-].
Qed.

(** A field the stored document has is returned as it is stored. *)
Lemma map_old_schema_keeps (d out : dict) k v :
  map_old_schema d = Ok out -> d !! k = Some v -> out !! k = Some v.
Proof.
  unfold map_old_schema. intros Hout Hk.
  eapply fill_image_keeps; [exact Hout|].
  apply fill_keeps; [apply guard_absent'|].
  apply fill_keeps; [apply guard_absent'|].
  apply fill_keeps; [apply guard_absent|done].
Qed.

Lemma map_old_schema_one_keeps (d out : dict) k v :
  map_old_schema_one d = Ok out -> d !! k = Some v -> out !! k = Some v.
Proof.
  unfold map_old_schema_one. intros Hout Hk.
  eapply fill_image_keeps; [exact Hout|].
  apply fill_keeps; [apply guard_absent'|].
  apply fill_keeps; [apply guard_absent'|done].
Qed.

Lemma limit_subset n (l : list dict) d : d ∈ limit n l -> d ∈ l.
Proof.
  unfold limit. destruct (n =? 0); [done|]. apply subseteq_take.
Qed.

Lemma matches_range_spec gte lte v :
  matches_range gte lte v = true ->
  exists p, v = VNum p /\
    match gte with Some a => (a <= p)%Q | None => True end /\
    match lte with Some b => (p <= b)%Q | None => True end.
Proof.
  destruct v as [| |q| | |]; simpl; try done.
  intros [Ha Hb]%andb_true_iff. exists q. split; [done|].
  split; [destruct gte|destruct lte]; try done; by apply Qle_bool_iff.
Qed.

(** Every listing [get_books] returns satisfies each range clause of the
    query on the field as returned. *)
Lemma get_books_range (books : collection) search category condition priceRange n
    result k gte lte book :
  get_books books search category condition priceRange n = Ok result ->
  In (FieldRange k gte lte) (build_query search category condition priceRange) ->
  k <> "_id" ->
  book ∈ result ->
  exists p, book !! k = Some (VNum p) /\
    match gte with Some a => (a <= p)%Q | None => True end /\
    match lte with Some b => (p <= b)%Q | None => True end.
Proof.
  unfold get_books. intros Hres Hq Hk Hin.
  apply for_each_Forall2 in Hres.
  destruct (proj1 (list_elem_of_lookup _ _) Hin) as [i Hi].
  destruct (Forall2_lookup_r _ _ _ _ _ Hres Hi) as (d & Hd & Hview).
  assert (Hdin : d ∈ find books (build_query search category condition priceRange)).
  { eapply limit_subset, list_elem_of_lookup. eauto. }
  unfold find in Hdin. apply list_elem_of_In, filter_In in Hdin as [_ Hm].
  unfold matches in Hm. rewrite forallb_forall in Hm. specialize (Hm _ Hq).
  simpl in Hm. unfold field_matches in Hm.
  destruct (d !! k) as [v|] eqn:Hdk; [|done].
  apply matches_range_spec in Hm as (p & -> & Hlo & Hhi).
  exists p. split; [|done].
  destruct (stringify_id d) as [d'|] eqn:Hd'; [|done]. simpl in Hview.
  eapply map_old_schema_keeps; [exact Hview|].
  by rewrite (stringify_id_other _ _ _ Hd' Hk).
Qed.

Lemma build_query_price search category condition r :
  r <> "" ->
  incl (price_clause r) (build_query search category condition (Some r)).
Proof.
  intros Hr c Hc. unfold build_query. rewrite !in_app_iff. do 3 right.
  simpl. destruct (String.eqb_spec r ""); done.
Qed.

Lemma get_books_price_in (books : collection) search category condition n r lo hi result :
  price_clause r = [FieldRange "price" (Some lo) hi] ->
  get_books books search category condition (Some r) n = Ok result ->
  Forall (price_in lo hi) result.
Proof.
  intros Hr Hres. apply Forall_forall. intros book Hin.
  assert (Hne : r <> "") by (intros ->; done).
  destruct (get_books_range _ _ _ _ _ _ _ "price" (Some lo) hi book Hres)
    as (p & Hp & Hlo & Hhi); [|done|done|].
  { apply (build_query_price _ _ _ _ Hne). rewrite Hr. by left. }
  exists p. by destruct hi.
Qed.

Lemma price_clause_other r :
  r <> "0-20" -> r <> "20-50" -> r <> "50-100" -> r <> "100+" -> price_clause r = [].
Proof.
  intros H1 H2 H3 H4. unfold price_clause.
  by rewrite (proj2 (String.eqb_neq _ _) H1), (proj2 (String.eqb_neq _ _) H2),
    (proj2 (String.eqb_neq _ _) H3), (proj2 (String.eqb_neq _ _) H4).
Qed.

(** C6: the listings returned for "0-20", "20-50" and "50-100" have a price
    within these bounds, both included, those returned for "100+" a price of
    at least 100, and any other price range selects what no price range
    selects. *)
Theorem get_books_price_range (books : collection)
    (search category condition : option string) (n : Z) (r : string)
    (result : list dict) :
  get_books books search category condition (Some r) n = Ok result ->
  (r = "0-20" -> Forall (price_in 0 (Some 20%Q)) result) /\
  (r = "20-50" -> Forall (price_in 20 (Some 50%Q)) result) /\
  (r = "50-100" -> Forall (price_in 50 (Some 100%Q)) result) /\
  (r = "100+" -> Forall (price_in 100 None) result) /\
  (r <> "0-20" -> r <> "20-50" -> r <> "50-100" -> r <> "100+" ->
   get_books books search category condition None n = Ok result).
Proof.
  intros Hres. repeat split.
  - intros ->. by eapply get_books_price_in; [|exact Hres].
  - intros ->. by eapply get_books_price_in; [|exact Hres].
  - intros ->. by eapply get_books_price_in; [|exact Hres].
  - intros ->. by eapply get_books_price_in; [|exact Hres].
  - intros H1 H2 H3 H4. rewrite <- Hres. unfold get_books, build_query. simpl.
    destruct (String.eqb r ""); [done|].
    by rewrite (price_clause_other r H1 H2 H3 H4).
Qed.

End Search.

(** A search for "20-50" over a store with a listing at 15 and one at 30
    returns the second only. *)
Lemma get_books_price_range_witness :
  exists result,
    get_books (H := Sample.runtime)
      [Sample.bobs_book; <["price" := VNum 30]> Sample.legacy_book]
      None None None (Some "20-50") 50 = Ok result /\
    length result = 1%nat /\
    Forall (price_in 20 (Some 50%Q)) result.
Proof.
  eexists. split; [reflexivity|]. split; [reflexivity|].
  apply (get_books_price_range (H := Sample.runtime)
           [Sample.bobs_book; <["price" := VNum 30]> Sample.legacy_book]
           None None None 50 "20-50"); reflexivity.
Defined.

(** ** The schema mapping *)

Section Normalizer.

Lemma fill_lookup_eq (d : dict) (b : bool) k v :
  (if b then <[k := v]> d else d) !! k = if b then Some v else d !! k.
Proof. destruct b; [apply lookup_insert_eq|done]. Qed.

Lemma fill_lookup_ne (d : dict) (b : bool) k v k' :
  k <> k' -> (if b then <[k := v]> d else d) !! k' = d !! k'.
Proof. intros Hne. destruct b; [by apply lookup_insert_ne|done]. Qed.

Lemma first_image_eq (d : dict) images :
  d !! "images" = Some images -> first_image d = image_of images.
Proof. unfold first_image, getitem. by intros ->. Qed.

Lemma image_step (d out : dict) :
  (if negb (contains d "image") && contains d "images"
   then image ← first_image d; Ok (<["image" := image]> d) else Ok d) = Ok out ->
  (forall k, k <> "image" -> out !! k = d !! k) /\
  image_rule d out.
Proof.
  unfold contains, image_rule.
  destruct (d !! "image") as [v|] eqn:Hi; cbn [negb andb].
  - intros [= <-]. by rewrite Hi.
  - destruct (d !! "images") as [images|] eqn:Hs.
    + rewrite (first_image_eq d images Hs).
      destruct (image_of images) as [v|]; [|done].
      intros [= <-]. split.
      * intros k Hk. by rewrite lookup_insert_ne.
      * exists v. by rewrite lookup_insert_eq.
    + intros [= <-]. by rewrite Hi.
Qed.

Ltac to_lookups :=
  unfold contains, get;
  rewrite ?fill_lookup_eq; rewrite ?fill_lookup_ne by discriminate.

(** What [map_old_schema] returns, field by field. *)
Lemma map_old_schema_fields (d out : dict) :
  map_old_schema d = Ok out ->
  (forall k, legacy_or_other k -> out !! k = d !! k) /\
  out !! "title" = match d !! "title" with Some v => Some v | None => d !! "Book Name" end /\
  out !! "author" = Some (default (get d "Publisher" (VStr "Unknown")) (d !! "author")) /\
  out !! "price" = Some (default (get d "Price" (VNum 0)) (d !! "price")) /\
  image_rule d out.
Proof.
  unfold map_old_schema. cbv zeta.
  set (d1 := if negb (contains d "title") && contains d "Book Name" then _ else d).
  set (d2 := if negb (contains d1 "author") then _ else d1).
  set (d3 := if negb (contains d2 "price") then _ else d2).
  intros [Hk Himg]%image_step.
  assert (H1 : forall k, k <> "title" -> d1 !! k = d !! k)
    by (intros k Hne; apply fill_lookup_ne; congruence).
  assert (H2 : forall k, k <> "author" -> d2 !! k = d1 !! k)
    by (intros k Hne; apply fill_lookup_ne; congruence).
  assert (H3 : forall k, k <> "price" -> d3 !! k = d2 !! k)
    by (intros k Hne; apply fill_lookup_ne; congruence).
  repeat split.
  - intros k (Ht & Ha & Hp & Hi). by rewrite Hk, H3, H2, H1.
  - rewrite Hk, H3, H2 by discriminate. subst d1. to_lookups.
    by destruct (d !! "title"), (d !! "Book Name").
  - rewrite Hk, H3 by discriminate. subst d2. to_lookups.
    rewrite !H1 by discriminate. by destruct (d !! "author").
  - rewrite Hk by discriminate. subst d3. to_lookups.
    rewrite !H2, !H1 by discriminate. by destruct (d !! "price").
  - revert Himg. unfold image_rule. by rewrite !H3, !H2, !H1 by discriminate.
Qed.

(** What [map_old_schema_one] returns, field by field. *)
Lemma map_old_schema_one_fields (d out : dict) :
  map_old_schema_one d = Ok out ->
  (forall k, k <> "title" -> k <> "author" -> k <> "image" -> out !! k = d !! k) /\
  out !! "title" = Some (default (get d "Book Name" (VStr "Untitled")) (d !! "title")) /\
  out !! "author" = Some (default (get d "Publisher" (VStr "Unknown")) (d !! "author")) /\
  image_rule d out.
Proof.
  unfold map_old_schema_one. cbv zeta.
  set (d1 := if negb (contains d "title") then _ else d).
  set (d2 := if negb (contains d1 "author") then _ else d1).
  intros [Hk Himg]%image_step.
  assert (H1 : forall k, k <> "title" -> d1 !! k = d !! k)
    by (intros k Hne; apply fill_lookup_ne; congruence).
  assert (H2 : forall k, k <> "author" -> d2 !! k = d1 !! k)
    by (intros k Hne; apply fill_lookup_ne; congruence).
  repeat split.
  - intros k Ht Ha Hi. by rewrite Hk, H2, H1.
  - rewrite Hk, H2 by discriminate. subst d1. to_lookups. by destruct (d !! "title").
  - rewrite Hk by discriminate. subst d2. to_lookups.
    rewrite !H1 by discriminate. by destruct (d !! "author").
  - revert Himg. unfold image_rule. by rewrite !H2, !H1 by discriminate.
Qed.

Lemma map_old_schema_succeeds (d : dict) :
  images_well_typed d -> exists out, map_old_schema d = Ok out.
Proof.
  unfold images_well_typed, map_old_schema. cbv zeta.
  set (d1 := if negb (contains d "title") && contains d "Book Name" then _ else d).
  set (d2 := if negb (contains d1 "author") then _ else d1).
  set (d3 := if negb (contains d2 "price") then _ else d2).
  assert (Hs : d3 !! "images" = d !! "images").
  { subst d3 d2 d1. by rewrite !fill_lookup_ne by discriminate. }
  intros Hwt. unfold contains, first_image, getitem. rewrite Hs.
  destruct (_ !! "image"); cbn [negb andb]; [by eexists|].
  destruct (d !! "images") as [[| | | | |[|x l]]|]; try done; by eexists.
Qed.

Lemma map_old_schema_one_succeeds (d : dict) :
  images_well_typed d -> exists out, map_old_schema_one d = Ok out.
Proof.
  unfold images_well_typed, map_old_schema_one. cbv zeta.
  set (d1 := if negb (contains d "title") then _ else d).
  set (d2 := if negb (contains d1 "author") then _ else d1).
  assert (Hs : d2 !! "images" = d !! "images").
  { subst d2 d1. by rewrite !fill_lookup_ne by discriminate. }
  intros Hwt. unfold contains, first_image, getitem. rewrite Hs.
  destruct (_ !! "image"); cbn [negb andb]; [by eexists|].
  destruct (d !! "images") as [[| | | | |[|x l]]|]; try done; by eexists.
Qed.

(** A document on which no guard of the mapping fires is returned as it
    is. *)
Lemma map_old_schema_noop (d : dict) :
  (d !! "title" = None -> d !! "Book Name" = None) ->
  is_Some (d !! "author") -> is_Some (d !! "price") ->
  (d !! "image" = None -> d !! "images" = None) ->
  map_old_schema d = Ok d.
Proof.
  intros Ht [a Ha] [p Hp] Hi. unfold map_old_schema, contains.
  assert (negb match d !! "title" with Some _ => true | None => false end &&
          match d !! "Book Name" with Some _ => true | None => false end = false) as ->.
  { destruct (d !! "title"); [done|]. by rewrite Ht. }
  cbn [negb andb]. rewrite Ha. cbn [negb andb]. rewrite Hp. cbn [negb andb].
  destruct (d !! "image"); [done|]. by rewrite Hi.
Qed.

Lemma map_old_schema_one_noop (d : dict) :
  is_Some (d !! "title") -> is_Some (d !! "author") ->
  (d !! "image" = None -> d !! "images" = None) ->
  map_old_schema_one d = Ok d.
Proof.
  intros [t Ht] [a Ha] Hi. unfold map_old_schema_one, contains.
  rewrite Ht. cbn [negb andb]. rewrite Ha. cbn [negb andb].
  destruct (d !! "image"); [done|]. by rewrite Hi.
Qed.

Lemma image_rule_fixed (d out : dict) :
  image_rule d out -> out !! "images" = d !! "images" ->
  out !! "image" = None -> out !! "images" = None.
Proof.
  unfold image_rule. intros Hr -> Hnone.
  destruct (d !! "image"), (d !! "images"); try congruence.
  destruct Hr as (img & _ & Himg). congruence.
Qed.

Lemma map_old_schema_fixed (d out : dict) :
  map_old_schema d = Ok out -> map_old_schema out = Ok out.
Proof.
  intros (Hk & Ht & Ha & Hp & Hi)%map_old_schema_fields.
  apply map_old_schema_noop.
  - rewrite Ht, (Hk "Book Name") by (unfold legacy_or_other; done).
    by destruct (d !! "title").
  - rewrite Ha. eauto.
  - rewrite Hp. eauto.
  - apply (image_rule_fixed d out Hi). apply Hk. unfold legacy_or_other; done.
Qed.

Lemma map_old_schema_one_fixed (d out : dict) :
  map_old_schema_one d = Ok out -> map_old_schema_one out = Ok out.
Proof.
  intros (Hk & Ht & Ha & Hi)%map_old_schema_one_fields.
  apply map_old_schema_one_noop.
  - rewrite Ht. eauto.
  - rewrite Ha. eauto.
  - apply (image_rule_fixed d out Hi). by apply Hk.
Qed.

End Normalizer.

Section NormalizerClaims.
Context `{Runtime}.

Lemma bind_fixed {A} (m : result A) (f : A -> result A) :
  (forall a, m = Ok a -> f a = Ok a) -> (m ≫= f) = m.
Proof. intros Hf. destruct m as [a|e]; [by apply Hf|done]. Qed.

Lemma stringify_id_fixed (d out : dict) :
  stringify_id d = Ok out -> stringify_id out = Ok out.
Proof.
  unfold stringify_id, getitem. destruct (d !! "_id") as [i|]; [|done].
  intros [= <-]. rewrite lookup_insert_eq. cbn [mbind result_bind str].
  by rewrite insert_insert_eq.
Qed.

Lemma stringify_id_absorbed (d out : dict) :
  stringify_id d = Ok out -> forall out', out' !! "_id" = out !! "_id" ->
  stringify_id out' = Ok out'.
Proof.
  unfold stringify_id, getitem. destruct (d !! "_id") as [i|]; [|done].
  intros [= <-] out'. rewrite lookup_insert_eq. intros Hid. rewrite Hid.
  cbn [mbind result_bind str]. by rewrite insert_id.
Qed.

Lemma search_pass_fixed (d out : dict) :
  stringify_id d ≫= map_old_schema = Ok out ->
  stringify_id out ≫= map_old_schema = Ok out.
Proof.
  destruct (stringify_id d) as [d'|] eqn:Hd'; [|done]. cbn [mbind result_bind].
  intros Hout. rewrite (stringify_id_absorbed d d' Hd' out).
  - cbn [mbind result_bind]. by eapply map_old_schema_fixed.
  - apply map_old_schema_fields in Hout as (Hk & _). apply Hk.
    unfold legacy_or_other; done.
Qed.

Lemma by_id_pass_fixed (d out : dict) :
  stringify_id d ≫= map_old_schema_one = Ok out ->
  stringify_id out ≫= map_old_schema_one = Ok out.
Proof.
  destruct (stringify_id d) as [d'|] eqn:Hd'; [|done]. cbn [mbind result_bind].
  intros Hout. rewrite (stringify_id_absorbed d d' Hd' out).
  - cbn [mbind result_bind]. by eapply map_old_schema_one_fixed.
  - apply map_old_schema_one_fields in Hout as (Hk & _). by apply Hk.
Qed.

Lemma canonical_untouched (doc : dict) :
  is_canonical doc = true ->
  map_old_schema doc = Ok doc /\ map_old_schema_one doc = Ok doc.
Proof.
  unfold is_canonical.
  intros [[[Ht Ha]%andb_true_iff Hp]%andb_true_iff Hi]%andb_true_iff.
  apply contains_true in Ht, Ha, Hp, Hi.
  split; [apply map_old_schema_noop|apply map_old_schema_one_noop]; try done.
  - intros Hnone. rewrite Hnone in Ht. by destruct Ht.
  - intros Hnone. rewrite Hnone in Hi. by destruct Hi.
  - intros Hnone. rewrite Hnone in Hi. by destruct Hi.
Qed.

(** C4: the schema mapping is idempotent on the search path and on the
    lookup path: mapping a mapped document gives the same document, for
    the mapping rules alone and for the whole pass that also renders [_id];
    and a document that already has the canonical fields comes out as it
    went in. *)
Theorem normalization_idempotent (doc : dict) :
  (map_old_schema doc ≫= map_old_schema) = map_old_schema doc /\
  (map_old_schema_one doc ≫= map_old_schema_one) = map_old_schema_one doc /\
  ((stringify_id doc ≫= map_old_schema) ≫=
     (fun book => stringify_id book ≫= map_old_schema))
  = (stringify_id doc ≫= map_old_schema) /\
  ((stringify_id doc ≫= map_old_schema_one) ≫=
     (fun book => stringify_id book ≫= map_old_schema_one))
  = (stringify_id doc ≫= map_old_schema_one) /\
  (is_canonical doc = true ->
   map_old_schema doc = Ok doc /\ map_old_schema_one doc = Ok doc).
Proof.
  split; [|split; [|split; [|split]]].
  - apply bind_fixed. intros out. apply map_old_schema_fixed.
  - apply bind_fixed. intros out. apply map_old_schema_one_fixed.
  - apply bind_fixed. intros out. apply search_pass_fixed.
  - apply bind_fixed. intros out. apply by_id_pass_fixed.
  - apply canonical_untouched.
Qed.

End NormalizerClaims.

(** Bob's listing has the four canonical fields and is returned as stored. *)
Lemma normalization_idempotent_witness :
  map_old_schema Sample.bobs_book = Ok Sample.bobs_book /\
  map_old_schema_one Sample.bobs_book = Ok Sample.bobs_book.
Proof.
  apply (normalization_idempotent (H := Sample.runtime) Sample.bobs_book).
  reflexivity.
Defined.

Section NormalizerBySpec.

Lemma image_rule_by_design (doc out : dict) :
  image_rule doc out -> doc !! "image" = None ->
  match doc !! "images" with
  | Some (VList (first :: _)) => out !! "image" = Some (VStr first)
  | Some (VList []) => out !! "image" = Some VNone
  | Some _ => True
  | None => out !! "image" = None
  end.
Proof.
  unfold image_rule. intros Hr Hi. rewrite Hi in Hr.
  destruct (doc !! "images") as [[| | | | |[|x l]]|]; try done;
    destruct Hr as (v & Hv & ->); by injection Hv as <-.
Qed.

Lemma map_old_schema_by_design (doc out : dict) :
  map_old_schema doc = Ok out ->
  view_by_design doc out /\
  (doc !! "price" = None -> out !! "price" = Some (get doc "Price" (VNum 0))).
Proof.
  intros Hout.
  destruct (map_old_schema_fields _ _ Hout) as (Hk & Ht & Ha & Hp & Hi).
  repeat split.
  - intros k v. by apply map_old_schema_keeps.
  - exact Hk.
  - intros Hnone. by rewrite Ha, Hnone.
  - intros v Hnone Hv. by rewrite Ht, Hnone.
  - by apply image_rule_by_design.
  - intros Hnone. by rewrite Hp, Hnone.
Qed.

Lemma map_old_schema_one_by_design (doc out : dict) :
  map_old_schema_one doc = Ok out -> view_by_design doc out.
Proof.
  intros Hout.
  destruct (map_old_schema_one_fields _ _ Hout) as (Hk & Ht & Ha & Hi).
  repeat split.
  - intros k v. by apply map_old_schema_one_keeps.
  - intros k (H1 & H2 & _ & H4). by apply Hk.
  - intros Hnone. by rewrite Ha, Hnone.
  - intros v Hnone Hv. rewrite Ht, Hnone. unfold get. by rewrite Hv.
  - by apply image_rule_by_design.
Qed.

(** C3, as the program has it.  On the search path and on the lookup path
    the mapping returns for every document whose [images], if any, is a
    list, and what it returns for a stored document changes no stored
    field; has an absent [author] filled from [Publisher], else with
    "Unknown"; has an absent [title] filled from [Book Name] when there is
    one; has an absent [image] filled with the first element of the list
    [images], with [None] when that list is empty, and left absent when
    there is no [images].  On the search path an absent [price] is filled
    from [Price], else with 0.  On the lookup path an absent [title] is
    filled from [Book Name], else with "Untitled". *)
Theorem schema_mapping_by_design (doc : dict) :
  (forall out, map_old_schema doc = Ok out ->
     view_by_design doc out /\
     (doc !! "price" = None -> out !! "price" = Some (get doc "Price" (VNum 0)))) /\
  (forall one, map_old_schema_one doc = Ok one ->
     view_by_design doc one /\
     (doc !! "title" = None ->
      one !! "title" = Some (get doc "Book Name" (VStr "Untitled")))) /\
  (images_well_typed doc ->
   exists out one, map_old_schema doc = Ok out /\ map_old_schema_one doc = Ok one).
Proof.
  split; [|split].
  - intros out. apply map_old_schema_by_design.
  - intros one Hone. split; [by apply map_old_schema_one_by_design|].
    intros Hnone.
    destruct (map_old_schema_one_fields _ _ Hone) as (_ & Ht & _).
    by rewrite Ht, Hnone.
  - intros Hwt.
    destruct (map_old_schema_succeeds doc Hwt) as [out Hout].
    destruct (map_old_schema_one_succeeds doc Hwt) as [one Hone].
    by exists out, one.
Qed.

End NormalizerBySpec.

(** The legacy listing of the specification's example, and on the lookup
    path a document with neither [title] nor [Book Name]. *)
Lemma schema_mapping_by_design_witness :
  (exists out one,
     map_old_schema Sample.legacy_book = Ok out /\
     map_old_schema_one Sample.legacy_book = Ok one /\
     view_by_design Sample.legacy_book out /\
     view_by_design Sample.legacy_book one /\
     (Sample.legacy_book !! "price" = None ->
      out !! "price" = Some (get Sample.legacy_book "Price" (VNum 0))) /\
     (Sample.legacy_book !! "title" = None ->
      one !! "title" = Some (get Sample.legacy_book "Book Name" (VStr "Untitled")))) /\
  (forall one, map_old_schema_one Sample.no_images = Ok one ->
     one !! "title" = Some (VStr "Untitled")).
Proof.
  split.
  - destruct (schema_mapping_by_design Sample.legacy_book) as (Hsearch & Hone & Hex).
    destruct (Hex I) as (out & one & Hout & Hone').
    exists out, one.
    destruct (Hsearch out Hout) as [Hview Hprice].
    destruct (Hone one Hone') as [Hview' Htitle].
    done.
  - intros one Hone.
    destruct (schema_mapping_by_design Sample.no_images) as (_ & Hlookup & _).
    exact (proj2 (Hlookup one Hone) eq_refl).
Defined.

(** What the two paths return for the legacy listing of the example. *)
Example legacy_book_on_search_path :
  exists out, map_old_schema Sample.legacy_book = Ok out /\
    out !! "title" = Some (VStr "Algebra I") /\
    out !! "author" = Some (VStr "XYZ Press") /\
    out !! "price" = Some (VNum 15) /\
    out !! "image" = Some (VStr "http://x/1.png").
Proof. eexists. split; [reflexivity|]. repeat split; reflexivity. Qed.

Example legacy_book_on_lookup_path :
  exists out, map_old_schema_one Sample.legacy_book = Ok out /\
    out !! "title" = Some (VStr "Algebra I") /\
    out !! "author" = Some (VStr "XYZ Press") /\
    out !! "price" = None /\
    out !! "image" = Some (VStr "http://x/1.png").
Proof. eexists. split; [reflexivity|]. repeat split; reflexivity. Qed.

(** On a document that holds an empty [images] list and nothing else the
    search path gives no [title] and the lookup path no [price], and both
    give the [image] field the value [None]. *)
Example no_images_on_search_path :
  exists out, map_old_schema Sample.no_images = Ok out /\
    out !! "title" = None /\ out !! "price" = Some (VNum 0) /\
    out !! "image" = Some VNone.
Proof. eexists. split; [reflexivity|]. repeat split; reflexivity. Qed.

Example no_images_on_lookup_path :
  exists out, map_old_schema_one Sample.no_images = Ok out /\
    out !! "title" = Some (VStr "Untitled") /\ out !! "price" = None /\
    out !! "image" = Some VNone.
Proof. eexists. split; [reflexivity|]. repeat split; reflexivity. Qed.

(** The same document through the two endpoints. *)
Example no_images_through_get_books :
  exists out,
    get_books (H := Sample.runtime) [Sample.no_images] None None None None 50 = Ok [out] /\
    out !! "_id" = Some (VStr Sample.book_id) /\
    out !! "title" = None /\ out !! "author" = Some (VStr "Unknown") /\
    out !! "price" = Some (VNum 0) /\ out !! "image" = Some VNone.
Proof. eexists. split; [reflexivity|]. repeat split; reflexivity. Qed.

Example no_images_through_get_book :
  exists out,
    get_book (H := Sample.runtime) [Sample.no_images] Sample.book_id = Ok out /\
    out !! "_id" = Some (VStr Sample.book_id) /\
    out !! "title" = Some (VStr "Untitled") /\ out !! "author" = Some (VStr "Unknown") /\
    out !! "price" = None /\ out !! "image" = Some VNone.
Proof. eexists. split; [reflexivity|]. repeat split; reflexivity. Qed.

Example no_images_as_specified :
  Spec.normalize Sample.no_images !! "title" = Some (VStr "Untitled") /\
  Spec.normalize Sample.no_images !! "price" = Some (VNum 0) /\
  Spec.normalize Sample.no_images !! "image" = None.
Proof. repeat split; reflexivity. Qed.

(** C3 fails as stated: on the document that holds an empty [images] list
    and nothing else, neither path produces the view the specification
    describes. *)
Lemma schema_mapping_not_as_specified :
  ~ normalizes_as_specified map_old_schema Sample.no_images /\
  ~ normalizes_as_specified map_old_schema_one Sample.no_images.
Proof.
  unfold normalizes_as_specified. split; intros Heq.
  - destruct no_images_on_search_path as (out & Hout & _ & _ & Himg).
    rewrite Hout in Heq. injection Heq as ->.
    destruct no_images_as_specified as (_ & _ & Hspec). congruence.
  - destruct no_images_on_lookup_path as (out & Hout & _ & _ & Himg).
    rewrite Hout in Heq. injection Heq as ->.
    destruct no_images_as_specified as (_ & _ & Hspec). congruence.
Qed.

(** ** Object ids *)

Section ObjectIds.

Lemma hex_lower_id c : is_lower_hex c = true -> hex_lower c = c.
Proof.
  unfold hex_lower, is_lower_hex, is_upper_hex, is_digit. cbv zeta.
  generalize (nat_of_ascii c). intros n H.
  destruct ((65 <=? n)%nat && (n <=? 70)%nat) eqn:E; [|done].
  exfalso.
  apply andb_true_iff in E as [E1 E2].
  apply Nat.leb_le in E1, E2.
  apply orb_true_iff in H as [H|H]; apply andb_true_iff in H as [H1 H2];
    apply Nat.leb_le in H1, H2; lia.
Qed.

Lemma string_map_lower_id s :
  string_forall is_lower_hex s = true -> string_map hex_lower s = s.
Proof.
  induction s as [|c s IH]; simpl; [done|].
  intros [Hc Hs]%andb_true_iff. by rewrite hex_lower_id, IH.
Qed.

Lemma string_forall_impl (p q : ascii -> bool) s :
  (forall c, p c = true -> q c = true) ->
  string_forall p s = true -> string_forall q s = true.
Proof.
  intros Hpq. induction s as [|c s IH]; simpl; [done|].
  intros [Hc Hs]%andb_true_iff. by rewrite (Hpq c Hc), IH.
Qed.

(** [ObjectId(str(oid)) == oid] *)
Lemma ObjectId_canonical h : canonical h = true -> ObjectId h = Ok h.
Proof.
  unfold canonical, ObjectId, well_formed.
  intros [Hlen Hhex]%andb_true_iff. rewrite Hlen. simpl.
  rewrite (string_forall_impl is_lower_hex is_hex h); [|by unfold is_hex; intros c ->|done].
  by rewrite string_map_lower_id.
Qed.

End ObjectIds.

(** ** Tokens *)

Section Tokens.
Context `{Runtime}.

Lemma jwt_decode_encode now (p : Jwt.payload) key :
  jwt_decode now (jwt_encode p key) key =
  if Jwt.exp p <=? now then inl Jwt.ExpiredSignatureError else inr p.
Proof. unfold jwt_decode, jwt_encode. by rewrite String.eqb_refl. Qed.

Lemma jwt_decode_create_token user_id r now now' :
  now' < now + seven_days ->
  jwt_decode now' (create_token user_id r now) SECRET_KEY =
  inr {| Jwt.sub := user_id; Jwt.role := r; Jwt.exp := now + seven_days |}.
Proof.
  intros Hlt. unfold create_token. rewrite jwt_decode_encode. cbn [Jwt.exp].
  destruct (Z.leb_spec (now + seven_days) now'); [lia|done].
Qed.

Lemma jwt_decode_inr now t key p :
  jwt_decode now t key = inr p ->
  t = Jwt.Signed p (HS256 key p) /\ now < Jwt.exp p.
Proof.
  unfold jwt_decode. destruct t as [s|p' sg]; [done|].
  destruct (String.eqb_spec sg (HS256 key p')) as [->|]; [|done].
  destruct (Z.leb_spec (Jwt.exp p') now); [done|]. by intros [= <-].
Qed.

(** [verify_token] on a token that decodes to a payload whose subject is
    stored. *)
Lemma verify_token_found (users : collection) now t p oid (u : dict) :
  jwt_decode now t SECRET_KEY = inr p ->
  ObjectId (Jwt.sub p) = Ok oid ->
  find_one users [IdEq oid] = Some u ->
  verify_token users now t = Ok (<["_id" := VStr oid]> u).
Proof.
  intros Hdec Hoid Hu. unfold verify_token. rewrite Hdec, Hoid.
  cbn [mbind result_bind]. rewrite Hu.
  apply find_one_id_found in Hu as [Hid _].
  unfold getitem. by rewrite Hid.
Qed.

(** C10: a token that verifies, with a stored subject, yields the name,
    email and role that the store holds for that subject at verification
    time; the role in the payload does not matter: the same token issued for
    any other role yields the same identity. *)
Theorem verify_token_reads_the_store (users : collection) (now : Z)
    (t : Jwt.token) (p : Jwt.payload) (oid : string) (u : dict) :
  jwt_decode now t SECRET_KEY = inr p ->
  ObjectId (Jwt.sub p) = Ok oid ->
  find_one users [IdEq oid] = Some u ->
  exists identity,
    verify_token users now t = Ok identity /\
    identity !! "_id" = Some (VStr oid) /\
    identity !! "name" = u !! "name" /\
    identity !! "email" = u !! "email" /\
    identity !! "role" = u !! "role" /\
    forall r,
      verify_token users now
        (jwt_encode {| Jwt.sub := Jwt.sub p; Jwt.role := r; Jwt.exp := Jwt.exp p |}
                    SECRET_KEY)
      = Ok identity.
Proof.
  intros Hdec Hoid Hu. exists (<["_id" := VStr oid]> u).
  split; [by apply (verify_token_found users now t p oid u)|].
  split; [by rewrite lookup_insert_eq|].
  do 3 (split; [by rewrite lookup_insert_ne|]).
  intros r. apply jwt_decode_inr in Hdec as [_ Hexp].
  apply (verify_token_found users now _
           {| Jwt.sub := Jwt.sub p; Jwt.role := r; Jwt.exp := Jwt.exp p |} oid u);
    [|exact Hoid|exact Hu].
  rewrite jwt_decode_encode. cbn [Jwt.exp].
  destruct (Z.leb_spec (Jwt.exp p) now); [lia|done].
Qed.

End Tokens.

(** Ann's token, issued for the role "user", verified after her promotion
    in the store. *)
Lemma verify_token_reads_the_store_witness :
  exists identity,
    verify_token (H := Sample.runtime) [Sample.ann_promoted] 10 Sample.ann_token
      = Ok identity /\
    identity !! "_id" = Some (VStr Sample.ann_id) /\
    identity !! "name" = Sample.ann_promoted !! "name" /\
    identity !! "email" = Sample.ann_promoted !! "email" /\
    identity !! "role" = Sample.ann_promoted !! "role" /\
    forall r,
      verify_token (H := Sample.runtime) [Sample.ann_promoted] 10
        (jwt_encode (H := Sample.runtime)
           {| Jwt.sub := Jwt.sub Sample.ann_payload; Jwt.role := r;
              Jwt.exp := Jwt.exp Sample.ann_payload |}
           (SECRET_KEY (Runtime := Sample.runtime)))
      = Ok identity.
Proof.
  apply (verify_token_reads_the_store (H := Sample.runtime)
           [Sample.ann_promoted] 10 Sample.ann_token Sample.ann_payload
           Sample.ann_id Sample.ann_promoted); reflexivity.
Defined.

Example promoted_role_is_read :
  exists identity,
    verify_token (H := Sample.runtime) [Sample.ann_promoted] 10 Sample.ann_token
      = Ok identity /\
    identity !! "role" = Some (VStr "admin").
Proof. eexists. split; reflexivity. Qed.

(** ** Registration and login *)

Section Issue.
Context `{Runtime}.

(** What a successful [register] did. *)
Lemma register_Ok name email password role now salt new_id st resp st' :
  register name email password role now salt new_id st = (Ok resp, st') ->
  let doc := user_document name email password role now salt new_id in
  existsb (has_id new_id) (users_collection st) = false /\
  st' = with_users st (users_collection st ++ [doc]) /\
  resp = {| token := create_token new_id (VStr role) now;
            user := public_user new_id (VStr name) (VStr email) (VStr role) |}.
Proof.
  unfold register. run.
  destruct (find_one _ _); [done|].
  destruct (negb _); [done|].
  unfold insert_one. destruct (existsb _ _) eqn:Hex; [done|].
  cbn [str]. by intros [= <- <-].
Qed.

(** What a successful [login] found. *)
Lemma login_Ok email password role now st resp st' :
  login email password role now st = (Ok resp, st') ->
  exists (u : dict) i n e,
    st' = st /\
    find_one (users_collection st) [FieldEq "email" email] = Some u /\
    u !! "_id" = Some i /\ u !! "role" = Some (VStr role) /\
    u !! "name" = Some n /\ u !! "email" = Some e /\
    resp = {| token := create_token (str i) (VStr role) now;
              user := public_user (str i) n e (VStr role) |}.
Proof.
  unfold login. run.
  destruct (find_one _ _) as [u|] eqn:Hu; [|done].
  destruct (result_bind _ _ encode_utf8 _) as [stored|]; [|done].
  destruct (negb (checkpw _ _)); [done|].
  destruct (negb (eq_str _ _)) eqn:Hrole; [done|].
  apply negb_false_iff in Hrole. unfold getitem, get_none, get in *.
  destruct (u !! "role") as [r|] eqn:Hr; [|done]. simpl in Hrole.
  destruct r; try done. apply String.eqb_eq in Hrole as ->.
  destruct (u !! "_id") as [i|] eqn:Hi; [|done].
  destruct (u !! "name") as [n|] eqn:Hn; [|done].
  destruct (u !! "email") as [e|] eqn:He; [|done].
  intros [= <- <-]. by exists u, i, n, e.
Qed.

(** In a well-formed collection each document is the one found under its
    id. *)
Lemma well_formed_ids_find (c : collection) (d : dict) :
  well_formed_ids c = true -> d ∈ c ->
  exists h, d !! "_id" = Some (VOid h) /\ canonical h = true /\
            find_one c [IdEq h] = Some d.
Proof.
  unfold find_one. induction c as [|d0 c IH]; [by intros _ ?%elem_of_nil|].
  cbn [well_formed_ids List.find].
  destruct (d0 !! "_id") as [[| | |h0| |]|] eqn:Hd0; try done.
  intros [[Hcan Hfresh%negb_true_iff]%andb_true_iff Hwf]%andb_true_iff.
  intros [->|Hin]%elem_of_cons.
  - exists h0. rewrite matches_IdEq, (proj2 (has_id_spec h0 d0) Hd0). done.
  - destruct (IH Hwf Hin) as (h & Hid & Hc & Hfind). exists h.
    split; [done|]. split; [done|].
    rewrite matches_IdEq. destruct (has_id h d0) eqn:Hh0; [|done].
    apply has_id_spec in Hh0. rewrite Hd0 in Hh0. injection Hh0 as ->.
    exfalso. assert (existsb (has_id h) c = true); [|congruence].
    apply existsb_exists. exists d. split; [by apply list_elem_of_In|].
    by apply has_id_spec.
Qed.

(** C7: the token that a successful [register] or [login] returns
    verifies, at any time before its expiry and against the store that the
    call left, to an identity whose [_id] and [role] are the subject and the
    role the token was issued for, which are also the id and role of the
    response. *)
Theorem issued_token_verifies (now now' : Z) (st st' : state) (resp : auth_response) :
  issues now st resp st' ->
  well_formed_ids (users_collection st') = true ->
  now' < now + seven_days ->
  exists p sg identity,
    token resp = Jwt.Signed p sg /\
    verify_token (users_collection st') now' (token resp) = Ok identity /\
    identity !! "_id" = Some (VStr (Jwt.sub p)) /\
    identity !! "role" = Some (Jwt.role p) /\
    user resp !! "id" = Some (VStr (Jwt.sub p)) /\
    user resp !! "role" = Some (Jwt.role p).
Proof.
  intros Hissue Hwf Hnow. destruct Hissue as
    [name email password role salt new_id resp st' Hreg
    |email password role resp st' Hlog].
  - apply register_Ok in Hreg as (_ & -> & ->). cbn [users_collection with_users] in Hwf.
    set (doc := user_document name email password role now salt new_id) in *.
    destruct (well_formed_ids_find _ doc Hwf) as (h & Hid & Hcan & Hfind).
    { apply elem_of_app. right. by apply list_elem_of_singleton. }
    assert (h = new_id) as ->.
    { unfold doc, user_document in Hid. rewrite lookup_insert_eq in Hid. congruence. }
    eexists _, _, (<["_id" := VStr new_id]> doc).
    split; [reflexivity|]. cbn [token user users_collection with_users Jwt.sub Jwt.role].
    split.
    { eapply verify_token_found; [by apply jwt_decode_create_token| |exact Hfind].
      by apply ObjectId_canonical. }
    split; [by rewrite lookup_insert_eq|].
    split; [by rewrite lookup_insert_ne|]. done.
  - apply login_Ok in Hlog as (u & i & n & e & -> & Hu & Hi & Hr & Hn & He & ->).
    destruct (well_formed_ids_find _ u Hwf) as (h & Hid & Hcan & Hfind).
    { apply find_some in Hu as [Hin _]. by apply list_elem_of_In. }
    rewrite Hi in Hid. injection Hid as ->. cbn [str].
    eexists _, _, (<["_id" := VStr h]> u).
    split; [reflexivity|]. cbn [token user Jwt.sub Jwt.role].
    split.
    { eapply verify_token_found; [by apply jwt_decode_create_token| |exact Hfind].
      by apply ObjectId_canonical. }
    split; [by rewrite lookup_insert_eq|].
    split; [by rewrite lookup_insert_ne|]. done.
Qed.

End Issue.

(** Ann registers at time 0 in the shop and verifies her token at time 10. *)
Lemma issued_token_verifies_witness :
  exists p sg identity,
    token Sample.ann_response = Jwt.Signed p sg /\
    verify_token (H := Sample.runtime) (users_collection Sample.shop_with_ann) 10
      (token Sample.ann_response) = Ok identity /\
    identity !! "_id" = Some (VStr (Jwt.sub p)) /\
    identity !! "role" = Some (Jwt.role p) /\
    user Sample.ann_response !! "id" = Some (VStr (Jwt.sub p)) /\
    user Sample.ann_response !! "role" = Some (Jwt.role p).
Proof.
  apply (issued_token_verifies (H := Sample.runtime) 0 10 Sample.shop
           Sample.shop_with_ann Sample.ann_response).
  - apply (issues_register (H := Sample.runtime) 0 Sample.shop
             "Ann" "ann@example.org" "secret" "user" "salt" Sample.ann_id).
    reflexivity.
  - reflexivity.
  - reflexivity.
Defined.

(** ** Creating, updating and deleting listings *)

Section Mutations.
Context `{Runtime}.

(** [register] never stores a field named [id]. *)
Lemma register_no_id_field name email password role now salt new_id st resp st' :
  register name email password role now salt new_id st = (Ok resp, st') ->
  no_id_field (users_collection st) -> no_id_field (users_collection st').
Proof.
  intros (_ & -> & _)%register_Ok Hno. cbn [users_collection with_users].
  apply Forall_app. split; [done|]. apply Forall_singleton.
  unfold user_document. by rewrite !lookup_insert_ne.
Qed.

(** An identity that [verify_token] resolves from such a collection has no
    [id] either: the id is under [_id]. *)
Lemma verify_token_no_id (users : collection) now t (identity : dict) :
  no_id_field users -> verify_token users now t = Ok identity ->
  identity !! "id" = None /\ is_Some (identity !! "_id").
Proof.
  intros Hno. unfold verify_token.
  destruct (jwt_decode now t SECRET_KEY) as [[]|p]; try done.
  destruct (ObjectId (Jwt.sub p)) as [oid|]; [|done]. cbn [mbind result_bind].
  destruct (find_one users [IdEq oid]) as [u|] eqn:Hu; [|done].
  apply find_one_id_found in Hu as [Hid Hin]. unfold getitem. rewrite Hid.
  cbn [mbind result_bind]. intros [= <-].
  rewrite lookup_insert_ne by done. rewrite lookup_insert_eq.
  split; [|by eauto]. by apply (proj1 (Forall_forall _ _) Hno).
Qed.

(** [upload_book] raises [KeyError] for an identity without [id], whatever
    the listing. *)
Lemma upload_book_needs_id title author price category condition description
    isbn image (current_user : dict) now new_id st :
  current_user !! "id" = None ->
  (upload_book title author price category condition description isbn image
     current_user now new_id st).1 = Raise (KeyError "id") /\
  books_collection
    (upload_book title author price category condition description isbn image
       current_user now new_id st).2 = books_collection st.
Proof.
  intros Hid. unfold upload_book, save_image, getitem. run. rewrite Hid.
  by destruct image.
Qed.

(** With an identity that did carry [id], [email] and [name],
    [upload_book] stores the listing under the new id, owned by that [id]
    and active, and returns it. *)
Lemma upload_book_with_id title author price category condition description
    isbn (current_user : dict) now new_id st i e n :
  current_user !! "id" = Some i -> current_user !! "email" = Some e ->
  current_user !! "name" = Some n ->
  existsb (has_id new_id) (books_collection st) = false ->
  exists stored : dict,
    upload_book title author price category condition description isbn None
      current_user now new_id st
    = (Ok (<["_id" := VStr new_id]> stored),
       with_books st (books_collection st ++ [<["_id" := VOid new_id]> stored])) /\
    stored !! "sellerId" = Some i /\
    stored !! "status" = Some (VStr "active") /\
    stored !! "title" = Some (VStr title) /\
    stored !! "price" = Some (VNum price).
Proof.
  intros Hi He Hn Hfresh. unfold upload_book, getitem, insert_one. run.
  rewrite Hi, He, Hn, Hfresh. cbn [str]. eexists. split; [reflexivity|].
  by rewrite !lookup_insert_ne, lookup_insert_eq by done.
Qed.

(** The authorization check on an identity without [id]: an admin passes,
    anyone else makes it raise. *)
Lemma not_authorized_without_id (book current_user : dict) r :
  current_user !! "id" = None -> current_user !! "role" = Some r ->
  not_authorized book current_user =
  if eq_str r "admin" then Ok false else Raise (KeyError "id").
Proof.
  intros Hid Hr. unfold not_authorized, getitem. rewrite Hr, Hid.
  cbn [mbind result_bind]. by destruct (eq_str r "admin").
Qed.

(** The authorization check on an identity that has [role] and [id]. *)
Lemma not_authorized_with_id (book current_user : dict) r i :
  current_user !! "id" = Some i -> current_user !! "role" = Some r ->
  not_authorized book current_user =
  Ok (negb (eq_str r "admin") && negb (eq_str i (str (get_none book "sellerId")))).
Proof.
  intros Hid Hr. unfold not_authorized, getitem. rewrite Hr, Hid.
  cbn [mbind result_bind]. by destruct (eq_str r "admin").
Qed.

Lemma delete_book_result book_id oid (book current_user : dict) st :
  ObjectId book_id = Ok oid ->
  find_one (books_collection st) [IdEq oid] = Some book ->
  delete_book book_id current_user st =
  match not_authorized book current_user with
  | Raise e => (Raise e, st)
  | Ok true => (Raise (HTTPException 403 "Not authorized"), st)
  | Ok false =>
      (Ok "Book deleted successfully",
       with_books st (delete_one (books_collection st) [IdEq oid]))
  end.
Proof.
  intros Hoid Hbook. unfold delete_book. run. rewrite Hoid, Hbook.
  by destruct (not_authorized book current_user) as [[]|].
Qed.

Lemma update_book_refused book_id oid (book current_user : dict) st
    title author price category condition description status image now :
  ObjectId book_id = Ok oid ->
  find_one (books_collection st) [IdEq oid] = Some book ->
  match not_authorized book current_user with
  | Raise e =>
      update_book book_id title author price category condition description
        status image current_user now st = (Raise e, st)
  | Ok true =>
      update_book book_id title author price category condition description
        status image current_user now st
      = (Raise (HTTPException 403 "Not authorized"), st)
  | Ok false => True
  end.
Proof.
  intros Hoid Hbook. unfold update_book. run. rewrite Hoid, Hbook.
  by destruct (not_authorized book current_user) as [[]|].
Qed.

End Mutations.

Section RegisteredUser.
Context `{Runtime}.

(** Ann registers as a plain user in the shop and verifies her token: the
    identity is her stored document, with its id under [_id] and no field
    [id]. *)
Lemma ann_registers_and_verifies :
  let ann := user_document "Ann" "ann@example.org" "secret" "user" 0 "salt"
               Sample.ann_id in
  let st := with_users Sample.shop [ann] in
  let identity : dict := <["_id" := VStr Sample.ann_id]> ann in
  exists resp,
    register "Ann" "ann@example.org" "secret" "user" 0 "salt" Sample.ann_id
      Sample.shop = (Ok resp, st) /\
    verify_token (users_collection st) 10 (token resp) = Ok identity /\
    identity !! "role" = Some (VStr "user") /\
    identity !! "_id" = Some (VStr Sample.ann_id) /\
    identity !! "id" = None.
Proof.
  intros ann st identity.
  exists {| token := create_token Sample.ann_id (VStr "user") 0;
            user := public_user Sample.ann_id (VStr "Ann") (VStr "ann@example.org")
                      (VStr "user") |}.
  split; [reflexivity|].
  cbn [token users_collection st with_users]. split; [|done].
  eapply verify_token_found.
  - by apply jwt_decode_create_token.
  - reflexivity.
  - unfold find_one. cbn [List.find]. rewrite matches_IdEq.
    unfold has_id, ann, user_document. rewrite lookup_insert_eq. reflexivity.
Qed.

(** C2 on the program: the identity of a registered user cannot create a
    listing: [upload_book] raises [KeyError] on [current_user["id"]] and
    stores nothing, whatever the fields. *)
Theorem upload_book_raises_for_registered_user :
  exists resp st identity,
    register "Ann" "ann@example.org" "secret" "user" 0 "salt" Sample.ann_id
      Sample.shop = (Ok resp, st) /\
    verify_token (users_collection st) 10 (token resp) = Ok identity /\
    forall title author price category condition description isbn image now new_id,
      (upload_book title author price category condition description isbn image
         identity now new_id st).1 = Raise (KeyError "id") /\
      books_collection
        (upload_book title author price category condition description isbn image
           identity now new_id st).2 = books_collection st.
Proof.
  destruct ann_registers_and_verifies as (resp & Hreg & Hver & _ & _ & Hid).
  eexists _, _, _. split; [exact Hreg|]. split; [exact Hver|].
  intros. by apply upload_book_needs_id.
Qed.

(** C1 on the program: the identity of a registered user who is neither an
    admin nor the seller is not answered by 403: [update_book] and
    [delete_book] raise [KeyError] on [current_user["id"]]. *)
Theorem update_delete_raise_for_registered_user :
  exists resp st identity,
    register "Ann" "ann@example.org" "secret" "user" 0 "salt" Sample.ann_id
      Sample.shop = (Ok resp, st) /\
    verify_token (users_collection st) 10 (token resp) = Ok identity /\
    identity !! "role" = Some (VStr "user") /\
    identity !! "_id" = Some (VStr Sample.ann_id) /\
    find_one (books_collection st) [IdEq Sample.book_id] = Some Sample.bobs_book /\
    Sample.bobs_book !! "sellerId" = Some (VStr Sample.bob_id) /\
    (forall title author price category condition description status image now,
       update_book Sample.book_id title author price category condition
         description status image identity now st = (Raise (KeyError "id"), st)) /\
    delete_book Sample.book_id identity st = (Raise (KeyError "id"), st).
Proof.
  destruct ann_registers_and_verifies as (resp & Hreg & Hver & Hrole & Hsub & Hid).
  set (ann := user_document "Ann" "ann@example.org" "secret" "user" 0 "salt"
                Sample.ann_id) in *.
  set (identity := <["_id" := VStr Sample.ann_id]> ann) in *.
  set (st := with_users Sample.shop [ann]) in *.
  exists resp, st, identity. split; [exact Hreg|]. split; [exact Hver|].
  split; [exact Hrole|]. split; [exact Hsub|].
  assert (Hbook : find_one (books_collection st) [IdEq Sample.book_id]
                  = Some Sample.bobs_book) by reflexivity.
  split; [exact Hbook|]. split; [reflexivity|].
  pose proof (not_authorized_without_id Sample.bobs_book identity _ Hid Hrole) as Hna.
  cbn [eq_str String.eqb] in Hna.
  split.
  - intros.
    pose proof (update_book_refused Sample.book_id Sample.book_id Sample.bobs_book
                  identity st title author price category condition description
                  status image now eq_refl Hbook) as Hup.
    by rewrite Hna in Hup.
  - rewrite (delete_book_result Sample.book_id Sample.book_id Sample.bobs_book
               identity st eq_refl Hbook).
    by rewrite Hna.
Qed.

End RegisteredUser.

(** ** Ingestion *)

Import Ingestion.

Section Boards.
Context `{Runtime}.

(** Without a [Board] column the board is "General", whatever the title. *)
Lemma derive_board_no_column (r : row) book_title :
  r !! "Board" = None -> derive_board r book_title = VStr "General".
Proof. unfold derive_board, get. by intros ->. Qed.

(** On a blank [Board] cell the title decides, and a title that names no
    board leaves the sentinel. *)
Lemma derive_board_blank (r : row) book_title :
  r !! "Board" = Some (VStr "N/A") ->
  derive_board r book_title =
  if substring_of "Sindh" book_title then VStr "Sindh Board"
  else if substring_of "Punjab" book_title then VStr "Punjab Board"
  else VStr "N/A".
Proof. unfold derive_board, get. by intros ->. Qed.

(** An explicit board is kept. *)
Lemma derive_board_explicit (r : row) book_title v :
  r !! "Board" = Some v -> eq_str v "N/A" = false ->
  derive_board r book_title = v.
Proof. unfold derive_board, get. intros -> Hne. simpl. by rewrite Hne. Qed.

(** C5 on the program: a row titled "Sindh Board Math" in a sheet without
    a [Board] column is given the board "General"; the title is only
    consulted for a blank [Board] cell, and there a title that names no
    board leaves "N/A". *)
Theorem board_without_column_is_general (source_name : string) (now : Z) :
  Sample.sindh_row !! "Board" = None /\
  map (fun d => (title d, board d))
      (map (make_document source_name now) (fillna "N/A" [Sample.sindh_row]))
  = [("Sindh Board Math", VStr "General")] /\
  map (fun d => (title d, board d))
      (map (make_document source_name now) (fillna "N/A" [Sample.sindh_row_blank]))
  = [("Sindh Board Math", VStr "Sindh Board")] /\
  map (fun d => (title d, board d))
      (map (make_document source_name now) (fillna "N/A" [Sample.plain_row_blank]))
  = [("Algebra I", VStr "N/A")].
Proof. repeat split; reflexivity. Qed.

End Boards.

Section Batches.
Context `{Runtime}.

Lemma attempted_print (m : message) (st : state) :
  attempted (stdout (print m st)) =
  (attempted (stdout st) ++
   match m with Processing s => [s] | _ => [] end)%list.
Proof.
  unfold attempted, print. cbn [stdout]. rewrite omap_app.
  by destruct m; cbn; rewrite ?app_nil_r.
Qed.

(** Whatever happens inside, one call announces exactly one batch. *)
Lemma run_full_ingestion_attempted (w : world) now file_path source_name st :
  attempted (stdout (run_full_ingestion w now file_path source_name st)) =
  (attempted (stdout st) ++ [source_name])%list.
Proof.
  unfold run_full_ingestion, ingest.
  destruct (read_excel w file_path) as [frame|e].
  - destruct (map _ (fillna "N/A" frame)) as [|d records].
    + by rewrite attempted_print.
    + destruct (insert_many _ _ _) as [inv [e|]].
      * rewrite attempted_print. cbn [stdout]. rewrite attempted_print.
        by rewrite app_nil_r.
      * rewrite attempted_print. cbn [stdout]. rewrite attempted_print.
        by rewrite app_nil_r.
  - rewrite !attempted_print. by rewrite app_nil_r.
Qed.

(** A batch whose spreadsheet cannot be read prints the failure and leaves
    the inventory as it was. *)
Lemma run_full_ingestion_unreadable (w : world) now file_path source_name st e :
  read_excel w file_path = Raise e ->
  run_full_ingestion w now file_path source_name st =
  print (Failed source_name e) (print (Processing source_name) st).
Proof. unfold run_full_ingestion, ingest. by intros ->. Qed.

Lemma run_batches_app (w : world) now bs1 bs2 st :
  run_batches w now (bs1 ++ bs2) st = run_batches w now bs2 (run_batches w now bs1 st).
Proof. unfold run_batches. apply fold_left_app. Qed.

Lemma run_batches_attempted (w : world) now bs st :
  attempted (stdout (run_batches w now bs st)) =
  (attempted (stdout st) ++ map snd bs)%list.
Proof.
  revert st. induction bs as [|[file_path source_name] bs IH]; intros st.
  - by rewrite app_nil_r.
  - change (run_batches w now ((file_path, source_name) :: bs) st)
      with (run_batches w now bs (run_full_ingestion w now file_path source_name st)).
    rewrite IH, run_full_ingestion_attempted. by rewrite <- app_assoc.
Qed.

(** The script is a run over its three batches. *)
Lemma main_is_run_batches (w : world) now st :
  main w now st =
  run_batches w now
    [("Katib books.xlsx", "katib.pk"); ("Tariq books.xlsx", "tariqbookstore.com");
     ("Idris books.xlsx", "idrisbookbank.com")] st.
Proof. reflexivity. Qed.

(** C9: in a run over any sequence of batches, a batch whose source cannot
    be read costs that batch only: the run goes on with the batches after
    it, from the state the batches before it left plus the two lines the
    failed batch printed; and every batch of the sequence is attempted, in
    order. *)
Theorem ingestion_failure_is_isolated (w : world) (now : Z)
    (before after : list (string * string)) (bad : string * string)
    (e : exn) (st : state) :
  read_excel w bad.1 = Raise e ->
  run_batches w now (before ++ bad :: after) st =
  run_batches w now after
    (print (Failed bad.2 e) (print (Processing bad.2) (run_batches w now before st))) /\
  inventory (print (Failed bad.2 e)
               (print (Processing bad.2) (run_batches w now before st)))
  = inventory (run_batches w now before st) /\
  attempted (stdout (run_batches w now (before ++ bad :: after) st)) =
  (attempted (stdout st) ++ map snd (before ++ bad :: after))%list.
Proof.
  intros Hread. split; [|split].
  - rewrite run_batches_app.
    change (run_batches w now (bad :: after) ?s)
      with (run_batches w now after (run_full_ingestion w now bad.1 bad.2 s)).
    by rewrite (run_full_ingestion_unreadable _ _ _ _ _ e Hread).
  - reflexivity.
  - apply run_batches_attempted.
Qed.

End Batches.

(** The script, in a world where the second spreadsheet is missing. *)
Lemma ingestion_failure_is_isolated_witness :
  main (H := Sample.runtime) Sample.world 0 Sample.nothing =
  run_batches (H := Sample.runtime) Sample.world 0
    [("Idris books.xlsx", "idrisbookbank.com")]
    (print (Failed "tariqbookstore.com" (Exception "No such file or directory"))
       (print (Processing "tariqbookstore.com")
          (run_batches (H := Sample.runtime) Sample.world 0
             [("Katib books.xlsx", "katib.pk")] Sample.nothing))) /\
  length (inventory (main (H := Sample.runtime) Sample.world 0 Sample.nothing)) = 2%nat.
Proof.
  split; [|reflexivity].
  apply (ingestion_failure_is_isolated (H := Sample.runtime) Sample.world 0
           [("Katib books.xlsx", "katib.pk")]
           [("Idris books.xlsx", "idrisbookbank.com")]
           ("Tariq books.xlsx", "tariqbookstore.com")
           (Exception "No such file or directory") Sample.nothing).
  reflexivity.
Defined.

(** ** What an admin may do, and what the store keeps well formed *)

Section Admin.
Context `{Runtime}.

Lemma not_authorized_admin (book current_user : dict) :
  current_user !! "role" = Some (VStr "admin") ->
  not_authorized book current_user = Ok false.
Proof. unfold not_authorized, getitem. by intros ->. Qed.

(** An admin deletes any listing. *)
Lemma delete_book_by_admin book_id oid (book current_user : dict) st :
  ObjectId book_id = Ok oid ->
  find_one (books_collection st) [IdEq oid] = Some book ->
  current_user !! "role" = Some (VStr "admin") ->
  delete_book book_id current_user st =
  (Ok "Book deleted successfully",
   with_books st (delete_one (books_collection st) [IdEq oid])).
Proof.
  intros Hoid Hbook Hrole.
  rewrite (delete_book_result book_id oid book current_user st Hoid Hbook).
  by rewrite not_authorized_admin.
Qed.

(** In a well-formed collection the deleted listing is gone. *)
Lemma delete_one_gone (c : collection) h :
  well_formed_ids c = true -> find_one (delete_one c [IdEq h]) [IdEq h] = None.
Proof.
  unfold find_one, delete_one. induction c as [|d c IH]; [done|].
  cbn [well_formed_ids remove_first].
  destruct (d !! "_id") as [[| | |h0| |]|] eqn:Hd; try done.
  intros [[_ Hfresh%negb_true_iff]%andb_true_iff Hwf]%andb_true_iff.
  destruct (matches [IdEq h] d) eqn:Hm.
  - rewrite matches_IdEq in Hm. apply has_id_spec in Hm. rewrite Hd in Hm.
    injection Hm as ->. clear IH Hwf.
    induction c as [|d' c IH]; [done|]. cbn [existsb List.find] in *.
    apply orb_false_iff in Hfresh as [Hd' Hfresh].
    rewrite matches_IdEq, Hd'. by apply IH.
  - cbn [List.find]. rewrite Hm. by apply IH.
Qed.

Lemma set_if_truthy_other k o (m : dict) k' :
  k <> k' -> set_if_truthy k o m !! k' = m !! k'.
Proof.
  intros Hne. unfold set_if_truthy. destruct (truthy_str o); [|done].
  by rewrite lookup_insert_ne.
Qed.

Lemma find_one_update_one (c : collection) h (fields d : dict) :
  fields !! "_id" = None ->
  find_one c [IdEq h] = Some d ->
  find_one (update_one c [IdEq h] fields) [IdEq h] = Some (fields ∪ d).
Proof.
  intros Hf. unfold find_one, update_one.
  induction c as [|d0 c IH]; [done|]. cbn [List.find update_first].
  destruct (matches [IdEq h] d0) eqn:Hm.
  - intros [= ->]. cbn [List.find].
    assert (matches [IdEq h] (fields ∪ d) = true) as ->; [|done].
    rewrite matches_IdEq in *. apply has_id_spec in Hm. apply has_id_spec.
    by rewrite lookup_union_r.
  - intros Hd. cbn [List.find]. rewrite Hm. by apply IH.
Qed.

(** An admin updates any listing: the listing comes back under its id,
    with the title and the price of the request when the request has
    them. *)
Lemma update_book_by_admin book_id oid (book current_user : dict) st
    title author price category condition description status now :
  ObjectId book_id = Ok oid ->
  find_one (books_collection st) [IdEq oid] = Some book ->
  current_user !! "role" = Some (VStr "admin") ->
  exists updated st',
    update_book book_id title author price category condition description status
      None current_user now st = (Ok updated, st') /\
    updated !! "_id" = Some (VStr oid) /\
    (forall s, truthy_str title = Some s -> updated !! "title" = Some (VStr s)) /\
    (forall p, price = Some p -> updated !! "price" = Some (VNum p)) /\
    (truthy_str title = None -> updated !! "title" = book !! "title").
Proof.
  intros Hoid Hbook Hrole. unfold update_book. run.
  rewrite Hoid, Hbook, (not_authorized_admin book current_user Hrole).
  cbn [books_collection with_books].
  set (fields := set_if_truthy "status" status _).
  assert (Hf : fields !! "_id" = None).
  { subst fields. rewrite !set_if_truthy_other by done.
    destruct price; rewrite ?lookup_insert_ne by done;
      by rewrite !set_if_truthy_other by done. }
  rewrite (find_one_update_one _ oid fields book Hf Hbook).
  apply find_one_id_found in Hbook as [Hid _].
  unfold stringify_id, getitem. rewrite lookup_union_r, Hid by done.
  cbn [mbind result_bind str]. eexists _, _. split; [reflexivity|].
  split; [by rewrite lookup_insert_eq|].
  rewrite !lookup_insert_ne by done. subst fields. repeat split.
  - intros s Hs. erewrite lookup_union_Some_l; [done|].
    rewrite !set_if_truthy_other by done.
    destruct price; rewrite ?lookup_insert_ne by done;
      rewrite !set_if_truthy_other by done;
      unfold set_if_truthy; rewrite Hs; by rewrite lookup_insert_eq.
  - intros p ->. erewrite lookup_union_Some_l; [done|].
    rewrite !set_if_truthy_other by done. by rewrite lookup_insert_eq.
  - intros Hs. rewrite lookup_union_r; [done|].
    rewrite !set_if_truthy_other by done.
    destruct price; rewrite ?lookup_insert_ne by done;
      rewrite !set_if_truthy_other by done;
      unfold set_if_truthy; by rewrite Hs.
Qed.

Lemma well_formed_ids_snoc (c : collection) (d : dict) h :
  well_formed_ids c = true -> d !! "_id" = Some (VOid h) -> canonical h = true ->
  existsb (has_id h) c = false -> well_formed_ids (c ++ [d]) = true.
Proof.
  intros Hwf Hd Hcan. induction c as [|d0 c IH]; cbn [app well_formed_ids existsb] in *.
  - intros _. by rewrite Hd, Hcan.
  - destruct (d0 !! "_id") as [[| | |h0| |]|] eqn:Hd0; try done.
    apply andb_true_iff in Hwf as [[Hc0 Hfresh%negb_true_iff]%andb_true_iff Hwf].
    intros [Hne Hex]%orb_false_iff.
    rewrite Hc0, (IH Hwf Hex), existsb_app, Hfresh. cbn [existsb].
    assert (has_id h0 d = false) as ->; [|done].
    destruct (has_id h0 d) eqn:Hh; [|done]. apply has_id_spec in Hh.
    rewrite Hd in Hh. injection Hh as ->.
    assert (has_id h0 d0 = true) by (by apply has_id_spec). congruence.
Qed.

(** [register] keeps the users well formed when the driver's new id is a
    canonical one. *)
Lemma register_well_formed name email password role now salt new_id st resp st' :
  register name email password role now salt new_id st = (Ok resp, st') ->
  canonical new_id = true ->
  well_formed_ids (users_collection st) = true ->
  well_formed_ids (users_collection st') = true.
Proof.
  intros (Hfresh & -> & _)%register_Ok Hcan Hwf. cbn [users_collection with_users].
  eapply well_formed_ids_snoc; [done| |done|done].
  unfold user_document. by rewrite lookup_insert_eq.
Qed.

Lemma login_keeps_state email password role now st resp st' :
  login email password role now st = (Ok resp, st') -> st' = st.
Proof. by intros (u & i & n & e & -> & _)%login_Ok. Qed.

End Admin.

(** * More of the program *)

(** ** Accounts *)

Section Accounts.
Context `{Runtime}.

Lemma find_snoc_hit (p : dict -> bool) (c : collection) (d : dict) :
  p d = true -> is_Some (List.find p (c ++ [d])).
Proof.
  intros Hd. induction c as [|d' c IH]; simpl.
  - rewrite Hd. by eauto.
  - destruct (p d'); [by eauto|done].
Qed.

Lemma find_snoc_new (p : dict -> bool) (c : collection) (d : dict) :
  List.find p c = None -> p d = true -> List.find p (c ++ [d]) = Some d.
Proof.
  intros Hc Hd. induction c as [|d' c IH]; simpl in *.
  - by rewrite Hd.
  - destruct (p d'); [done|by apply IH].
Qed.

Lemma user_document_email name email password role now salt new_id :
  matches [FieldEq "email" email]
    (user_document name email password role now salt new_id) = true.
Proof.
  unfold matches, user_document. cbn [forallb matches_clause].
  unfold field_matches.
  rewrite !lookup_insert_ne, lookup_insert_eq by done.
  cbn [matches_str]. by rewrite String.eqb_refl.
Qed.

(** X1: once an email is registered, every further registration under it
    is refused with "Email already registered", whatever the other fields,
    and leaves the store as it is. *)
Theorem register_same_email_refused name email password role now salt new_id
    (st st' : App.state) resp :
  register name email password role now salt new_id st = (Ok resp, st') ->
  forall name' password' role' now' salt' new_id',
    register name' email password' role' now' salt' new_id' st'
    = (Raise (HTTPException 400 "Email already registered"), st').
Proof.
  intros (_ & -> & _)%register_Ok. intros. unfold register. run.
  cbn [users_collection with_users]. unfold find_one.
  destruct (find_snoc_hit (matches [FieldEq "email" email]) (users_collection st)
              (user_document name email password role now salt new_id)
              (user_document_email _ _ _ _ _ _ _)) as [u ->].
  done.
Qed.

(** X2: a role other than "user" and "admin" is refused with "Invalid
    role" and nothing is stored; when the email is taken as well, the
    refusal is "Email already registered". *)
Theorem register_invalid_role name email password role now salt new_id (st : App.state) :
  role <> "user" -> role <> "admin" ->
  register name email password role now salt new_id st =
  (Raise (HTTPException 400
            match find_one (users_collection st) [FieldEq "email" email] with
            | Some _ => "Email already registered"
            | None => "Invalid role"
            end), st).
Proof.
  intros Hu Ha. unfold register. run.
  destruct (find_one _ _); [done|].
  by rewrite (proj2 (String.eqb_neq _ _) Hu), (proj2 (String.eqb_neq _ _) Ha).
Qed.

(** X3: a successful registration had a free email and a known role; it
    adds one document, after those already stored, holding the hash and
    not the password; it touches neither the listings nor the uploads; and
    its response names the new id and has no [password]. *)
Theorem register_stores_one_user name email password role now salt new_id
    (st st' : App.state) resp :
  register name email password role now salt new_id st = (Ok resp, st') ->
  find_one (users_collection st) [FieldEq "email" email] = None /\
  (role = "user" \/ role = "admin") /\
  (exists doc : dict,
     users_collection st' = (users_collection st ++ [doc])%list /\
     doc !! "_id" = Some (VOid new_id) /\
     doc !! "email" = Some (VStr email) /\
     doc !! "role" = Some (VStr role) /\
     doc !! "password" = Some (VStr (hashpw password salt))) /\
  books_collection st' = books_collection st /\
  uploads st' = uploads st /\
  user resp !! "id" = Some (VStr new_id) /\
  user resp !! "password" = None.
Proof.
  intros Hreg. pose proof (register_Ok _ _ _ _ _ _ _ _ _ _ Hreg) as (_ & -> & ->).
  unfold register in Hreg. run.
  destruct (find_one _ _); [done|]. split; [done|].
  destruct (negb _) eqn:Hrole; [done|]. split.
  { apply negb_false_iff, orb_true_iff in Hrole as [Hr|Hr];
      apply String.eqb_eq in Hr; [by left|by right]. }
  split.
  { eexists. split; [reflexivity|]. unfold user_document.
    by rewrite lookup_insert_eq, !lookup_insert_ne, !lookup_insert_eq by done. }
  done.
Qed.

End Accounts.

(** Eve tries Ann's email. *)
Lemma register_same_email_refused_witness :
  register (H := Sample.runtime) "Eve" "ann@example.org" "x" "admin" 5 "pepper"
    Sample.bob_id Sample.shop_with_ann
  = (Raise (HTTPException 400 "Email already registered"), Sample.shop_with_ann).
Proof.
  apply (register_same_email_refused (H := Sample.runtime) "Ann" "ann@example.org"
           "secret" "user" 0 "salt" Sample.ann_id Sample.shop Sample.shop_with_ann
           Sample.ann_response).
  reflexivity.
Defined.

(** The role "owner", with a free email and with Ann's. *)
Lemma register_invalid_role_witness :
  register (H := Sample.runtime) "Eve" "eve@example.org" "x" "owner" 5 "pepper"
    Sample.bob_id Sample.shop_with_ann
  = (Raise (HTTPException 400 "Invalid role"), Sample.shop_with_ann) /\
  register (H := Sample.runtime) "Eve" "ann@example.org" "x" "owner" 5 "pepper"
    Sample.bob_id Sample.shop_with_ann
  = (Raise (HTTPException 400 "Email already registered"), Sample.shop_with_ann).
Proof.
  split.
  - apply (register_invalid_role (H := Sample.runtime) "Eve" "eve@example.org" "x"
             "owner" 5 "pepper" Sample.bob_id Sample.shop_with_ann); discriminate.
  - apply (register_invalid_role (H := Sample.runtime) "Eve" "ann@example.org" "x"
             "owner" 5 "pepper" Sample.bob_id Sample.shop_with_ann); discriminate.
Defined.

(** Ann's registration in the shop. *)
Lemma register_stores_one_user_witness :
  users_collection Sample.shop_with_ann = [Sample.ann] /\
  books_collection Sample.shop_with_ann = [Sample.bobs_book] /\
  user Sample.ann_response !! "password" = None.
Proof.
  destruct (register_stores_one_user (H := Sample.runtime) "Ann" "ann@example.org"
              "secret" "user" 0 "salt" Sample.ann_id Sample.shop Sample.shop_with_ann
              Sample.ann_response eq_refl)
    as (_ & _ & _ & Hbooks & _ & _ & Hpw).
  split; [reflexivity|]. split; [exact Hbooks|exact Hpw].
Defined.

Section Sessions.
Context `{Runtime}.

(** X4: [login] writes nothing: whatever it answers, the store is the one
    it found. *)
Theorem login_reads_only email password role now (st : App.state) :
  (login email password role now st).2 = st.
Proof.
  unfold login. run.
  destruct (find_one _ _) as [u|]; [|done].
  destruct (result_bind _ _ encode_utf8 _); [|done].
  destruct (negb (checkpw _ _)); [done|].
  destruct (negb (eq_str _ _)); [done|].
  by destruct (getitem u "_id"), (getitem u "role"), (getitem u "name"),
    (getitem u "email").
Qed.

Lemma login_unknown_email email password role now (st : App.state) :
  find_one (users_collection st) [FieldEq "email" email] = None ->
  login email password role now st
  = (Raise (HTTPException 401 "Invalid credentials"), st).
Proof. unfold login. run. by intros ->. Qed.

Lemma login_wrong_password email password role now (st : App.state) (u : dict) stored :
  find_one (users_collection st) [FieldEq "email" email] = Some u ->
  u !! "password" = Some (VStr stored) -> checkpw password stored = false ->
  login email password role now st
  = (Raise (HTTPException 401 "Invalid credentials"), st).
Proof.
  unfold login. run. intros -> Hpw Hcheck.
  unfold getitem. rewrite Hpw. cbn [result_bind encode_utf8]. by rewrite Hcheck.
Qed.

(** [login] on a stored user whose password is accepted. *)
Lemma login_found email password role now (st : App.state) (u : dict) stored r i n e :
  find_one (users_collection st) [FieldEq "email" email] = Some u ->
  u !! "password" = Some (VStr stored) -> checkpw password stored = true ->
  u !! "role" = Some r -> u !! "_id" = Some i ->
  u !! "name" = Some n -> u !! "email" = Some e ->
  login email password role now st =
  if eq_str r role
  then (Ok {| token := create_token (str i) r now;
              user := public_user (str i) n e r |}, st)
  else (Raise (HTTPException 403 "Invalid role for this account"), st).
Proof.
  unfold login. run. unfold lift. intros -> Hpw Hcheck Hr Hi Hn He.
  unfold getitem, get_none, get. rewrite Hpw. cbn [result_bind encode_utf8].
  rewrite Hcheck, Hr. change (default VNone (Some r)) with r. cbn [negb].
  destruct (eq_str r role); cbn [negb]; [|done].
  by rewrite Hi, Hn, He.
Qed.

(** X5: an unknown email and a wrong password are answered alike, by 401
    "Invalid credentials", before the role is looked at. *)
Theorem login_invalid_credentials email password role now (st : App.state) :
  find_one (users_collection st) [FieldEq "email" email] = None \/
  (exists (u : dict) stored,
     find_one (users_collection st) [FieldEq "email" email] = Some u /\
     u !! "password" = Some (VStr stored) /\ checkpw password stored = false) ->
  login email password role now st
  = (Raise (HTTPException 401 "Invalid credentials"), st).
Proof.
  intros [Hnone|(u & stored & Hu & Hpw & Hcheck)].
  - by apply login_unknown_email.
  - by eapply login_wrong_password.
Qed.

Lemma register_had_free_email name email password role now salt new_id
    (st st' : App.state) resp :
  register name email password role now salt new_id st = (Ok resp, st') ->
  find_one (users_collection st) [FieldEq "email" email] = None.
Proof. unfold register. run. by destruct (find_one _ _). Qed.

Lemma find_email_after_register name email password role now salt new_id
    (st st' : App.state) resp :
  register name email password role now salt new_id st = (Ok resp, st') ->
  find_one (users_collection st') [FieldEq "email" email]
  = Some (user_document name email password role now salt new_id).
Proof.
  intros Hreg. pose proof (register_had_free_email _ _ _ _ _ _ _ _ _ _ Hreg) as Hfree.
  apply register_Ok in Hreg as (_ & -> & _). cbn [users_collection with_users].
  by apply find_snoc_new; [|apply user_document_email].
Qed.

Lemma user_document_fields name email password role now salt new_id :
  let doc := user_document name email password role now salt new_id in
  doc !! "password" = Some (VStr (hashpw password salt)) /\
  doc !! "role" = Some (VStr role) /\ doc !! "_id" = Some (VOid new_id) /\
  doc !! "name" = Some (VStr name) /\ doc !! "email" = Some (VStr email).
Proof.
  unfold user_document. cbv zeta.
  by rewrite lookup_insert_eq, !lookup_insert_ne, !lookup_insert_eq by done.
Qed.

(** X6: after a registration, and when bcrypt accepts the password against
    its own hash, a login with the same email, password and role succeeds,
    writes nothing, and answers the same public user with a token for the
    same subject and role. *)
Theorem register_then_login name email password role now salt new_id
    (st st' : App.state) resp now' :
  register name email password role now salt new_id st = (Ok resp, st') ->
  checkpw password (hashpw password salt) = true ->
  login email password role now' st'
  = (Ok {| token := create_token new_id (VStr role) now'; user := user resp |}, st').
Proof.
  intros Hreg Hcheck.
  pose proof (find_email_after_register _ _ _ _ _ _ _ _ _ _ Hreg) as Hfind.
  apply register_Ok in Hreg as (_ & _ & ->).
  destruct (user_document_fields name email password role now salt new_id)
    as (Hpw & Hr & Hi & Hn & He).
  rewrite (login_found _ _ _ _ _ _ _ _ _ _ _ Hfind Hpw Hcheck Hr Hi Hn He).
  cbn [eq_str str user]. by rewrite String.eqb_refl.
Qed.

(** X7: the same login under another role is refused with 403 "Invalid
    role for this account", and a wrong password with 401, whatever the
    role asked for. *)
Theorem login_after_register_refused name email password role now salt new_id
    (st st' : App.state) resp now' :
  register name email password role now salt new_id st = (Ok resp, st') ->
  (forall role', checkpw password (hashpw password salt) = true -> role' <> role ->
     login email password role' now' st'
     = (Raise (HTTPException 403 "Invalid role for this account"), st')) /\
  (forall wrong role', checkpw wrong (hashpw password salt) = false ->
     login email wrong role' now' st'
     = (Raise (HTTPException 401 "Invalid credentials"), st')).
Proof.
  intros Hreg.
  pose proof (find_email_after_register _ _ _ _ _ _ _ _ _ _ Hreg) as Hfind.
  destruct (user_document_fields name email password role now salt new_id)
    as (Hpw & Hr & Hi & Hn & He).
  split.
  - intros role' Hcheck Hne.
    rewrite (login_found _ _ _ _ _ _ _ _ _ _ _ Hfind Hpw Hcheck Hr Hi Hn He).
    cbn [eq_str]. by rewrite (proj2 (String.eqb_neq role role')) by congruence.
  - intros wrong role' Hcheck. by eapply login_wrong_password.
Qed.

End Sessions.

(** A login under an email nobody registered. *)
Lemma login_invalid_credentials_witness :
  login (H := Sample.runtime) "nobody@example.org" "secret" "user" 3 Sample.shop_with_ann
  = (Raise (HTTPException 401 "Invalid credentials"), Sample.shop_with_ann).
Proof.
  apply (login_invalid_credentials (H := Sample.runtime)). left. reflexivity.
Defined.

(** Ann logs in at time 7 with what she registered with. *)
Lemma register_then_login_witness :
  login (H := Sample.runtime) "ann@example.org" "secret" "user" 7 Sample.shop_with_ann
  = (Ok {| token := create_token (H := Sample.runtime) Sample.ann_id (VStr "user") 7;
           user := user Sample.ann_response |}, Sample.shop_with_ann).
Proof.
  apply (register_then_login (H := Sample.runtime) "Ann" "ann@example.org" "secret"
           "user" 0 "salt" Sample.ann_id Sample.shop Sample.shop_with_ann
           Sample.ann_response 7); reflexivity.
Defined.

(** Ann asks for the role "admin". *)
Lemma login_after_register_refused_witness :
  login (H := Sample.runtime) "ann@example.org" "secret" "admin" 7 Sample.shop_with_ann
  = (Raise (HTTPException 403 "Invalid role for this account"), Sample.shop_with_ann).
Proof.
  apply (login_after_register_refused (H := Sample.runtime) "Ann" "ann@example.org"
           "secret" "user" 0 "salt" Sample.ann_id Sample.shop Sample.shop_with_ann
           Sample.ann_response 7); [reflexivity|reflexivity|discriminate].
Defined.

(** ** Verification *)

Section Verification.
Context `{Runtime}.

(** X8: from seven days after its issue on, a token of [create_token] is
    answered by 401 "Token expired", in every store. *)
Theorem expired_token_rejected (users : collection) user_id r now now' :
  now + seven_days <= now' ->
  verify_token users now' (create_token user_id r now)
  = Raise (HTTPException 401 "Token expired").
Proof.
  intros Hlate. unfold verify_token, create_token.
  rewrite jwt_decode_encode. cbn [Jwt.exp].
  by destruct (Z.leb_spec (now + seven_days) now'); [|lia].
Qed.

(** X9: a token still valid whose subject is the id of no stored user is
    answered by 401 "User not found"; when the subject has not even the
    length of an id, [InvalidId] leaves [verify_token], which only handles
    the two token errors. *)
Theorem token_of_unknown_subject (users : collection) user_id r now now' :
  now' < now + seven_days ->
  (String.length user_id <> 24%nat ->
   verify_token users now' (create_token user_id r now) = Raise InvalidId) /\
  (forall oid, ObjectId user_id = Ok oid -> find_one users [IdEq oid] = None ->
   verify_token users now' (create_token user_id r now)
   = Raise (HTTPException 401 "User not found")).
Proof.
  intros Hnow. unfold verify_token.
  rewrite (jwt_decode_create_token user_id r now now' Hnow). cbn [Jwt.sub]. split.
  - intros Hlen. by rewrite (ObjectId_wrong_length _ Hlen).
  - intros oid -> Hnone. cbn [mbind result_bind]. by rewrite Hnone.
Qed.

Lemma verify_after_register name email password role now salt new_id
    (st st' : App.state) resp now' :
  register name email password role now salt new_id st = (Ok resp, st') ->
  well_formed_ids (users_collection st') = true ->
  now' < now + seven_days ->
  verify_token (users_collection st') now' (token resp)
  = Ok (<["_id" := VStr new_id]>
          (user_document name email password role now salt new_id)).
Proof.
  intros (_ & -> & ->)%register_Ok Hwf Hnow.
  cbn [users_collection with_users token] in *.
  set (doc := user_document name email password role now salt new_id) in *.
  destruct (well_formed_ids_find _ doc Hwf) as (h & Hid & Hcan & Hfind).
  { apply elem_of_app. right. by apply list_elem_of_singleton. }
  assert (h = new_id) as ->.
  { unfold doc, user_document in Hid. rewrite lookup_insert_eq in Hid. congruence. }
  eapply verify_token_found; [by apply jwt_decode_create_token| |exact Hfind].
  by apply ObjectId_canonical.
Qed.

(** X10: the admin gate on a fresh registration: resolved from the token
    that [register] returned, [require_admin] lets the user through
    unchanged when the registered role is "admin" and answers 403 "Admin
    access required" when it is "user". *)
Theorem current_admin_after_register name email password role now salt new_id
    (st st' : App.state) resp now' :
  register name email password role now salt new_id st = (Ok resp, st') ->
  well_formed_ids (users_collection st') = true ->
  now' < now + seven_days ->
  current_admin (users_collection st') now' (token resp) =
  if String.eqb role "admin"
  then Ok (<["_id" := VStr new_id]>
             (user_document name email password role now salt new_id))
  else Raise (HTTPException 403 "Admin access required").
Proof.
  intros Hreg Hwf Hnow. unfold current_admin.
  rewrite (verify_after_register _ _ _ _ _ _ _ _ _ _ _ Hreg Hwf Hnow).
  cbn [mbind result_bind]. unfold require_admin, get_none, get, user_document.
  rewrite !lookup_insert_ne, lookup_insert_eq by done.
  change (default VNone (Some (VStr role))) with (VStr role). cbn [eq_str].
  by destruct (String.eqb role "admin").
Qed.

End Verification.

(** Ann's token, eight days after her registration. *)
Lemma expired_token_rejected_witness :
  verify_token (H := Sample.runtime) [Sample.ann] (8 * 24 * 60 * 60) Sample.ann_token
  = Raise (HTTPException 401 "Token expired").
Proof.
  apply (expired_token_rejected (H := Sample.runtime) [Sample.ann] Sample.ann_id
           (VStr "user") 0 (8 * 24 * 60 * 60)).
  discriminate.
Defined.

(** Ann's token against a store that does not hold her, and a token
    whose subject is "xyz". *)
Lemma token_of_unknown_subject_witness :
  verify_token (H := Sample.runtime) [More.bob] 10 Sample.ann_token
  = Raise (HTTPException 401 "User not found") /\
  verify_token (H := Sample.runtime) [More.bob] 10
    (create_token (H := Sample.runtime) "xyz" (VStr "user") 0)
  = Raise InvalidId.
Proof.
  split.
  - apply (token_of_unknown_subject (H := Sample.runtime) [More.bob] Sample.ann_id
             (VStr "user") 0 10 eq_refl) with (oid := Sample.ann_id); reflexivity.
  - apply (token_of_unknown_subject (H := Sample.runtime) [More.bob] "xyz"
             (VStr "user") 0 10 eq_refl).
    discriminate.
Defined.

(** Ann, a plain user, and Bob, an admin, at the admin gate. *)
Lemma current_admin_after_register_witness :
  current_admin (H := Sample.runtime) (users_collection Sample.shop_with_ann) 10
    (token Sample.ann_response)
  = Raise (HTTPException 403 "Admin access required") /\
  current_admin (H := Sample.runtime) (users_collection More.shop_with_bob) 10
    (token More.bob_response)
  = Ok (<["_id" := VStr Sample.bob_id]> More.bob).
Proof.
  split.
  - apply (current_admin_after_register (H := Sample.runtime) "Ann" "ann@example.org"
             "secret" "user" 0 "salt" Sample.ann_id Sample.shop Sample.shop_with_ann
             Sample.ann_response 10); reflexivity.
  - apply (current_admin_after_register (H := Sample.runtime) "Bob" "bob@example.org"
             "hunter2" "admin" 0 "salt" Sample.bob_id Sample.shop More.shop_with_bob
             More.bob_response 10); reflexivity.
Defined.

(** ** Reading listings *)

Section Reading.
Context `{Runtime}.






(** X11: in a well-formed store, [get_book] under the id of a stored
    listing whose [images], if any, is a list returns that listing: its id
    as a string, every other stored field as stored, and a [title] and an
    [author]. *)
Theorem get_book_returns_listing (books : collection) (d : dict) h :
  well_formed_ids books = true -> d ∈ books -> d !! "_id" = Some (VOid h) ->
  images_well_typed d ->
  exists out : dict,
    get_book books h = Ok out /\
    out !! "_id" = Some (VStr h) /\
    (forall k v, k <> "_id" -> d !! k = Some v -> out !! k = Some v) /\
    is_Some (out !! "title") /\ is_Some (out !! "author").
Proof.
  intros Hwf Hin Hid Hwt.
  destruct (well_formed_ids_find books d Hwf Hin) as (h' & Hid' & Hcan & Hfind).
  assert (h' = h) as -> by congruence.
  set (d' := <["_id" := VStr h]> d).
  assert (Hd' : stringify_id d = Ok d').
  { unfold stringify_id, getitem. by rewrite Hid. }
  assert (Hwt' : images_well_typed d').
  { unfold images_well_typed, d'. by rewrite lookup_insert_ne. }
  destruct (map_old_schema_one_succeeds d' Hwt') as [out Hout].
  exists out. split.
  { unfold get_book, get_book_body. rewrite (ObjectId_canonical h Hcan).
    cbn [mbind result_bind]. rewrite Hfind, Hd'. cbn [mbind result_bind].
    by rewrite Hout. }
  destruct (map_old_schema_one_fields d' out Hout) as (_ & Ht & Ha & _).
  split; [|split; [|split]].
  - eapply map_old_schema_one_keeps; [exact Hout|]. unfold d'.
    by rewrite lookup_insert_eq.
  - intros k v Hk Hv. eapply map_old_schema_one_keeps; [exact Hout|].
    unfold d'. by rewrite lookup_insert_ne.
  - rewrite Ht. by eauto.
  - rewrite Ha. by eauto.
Qed.






End Reading.

(** The legacy listing, looked up under its id. *)
Lemma get_book_returns_listing_witness :
  exists out : dict,
    get_book (H := Sample.runtime) [Sample.bobs_book; Sample.legacy_book]
      Sample.legacy_id = Ok out /\
    out !! "_id" = Some (VStr Sample.legacy_id) /\
    (forall k v, k <> "_id" -> Sample.legacy_book !! k = Some v -> out !! k = Some v) /\
    is_Some (out !! "title") /\ is_Some (out !! "author").
Proof.
  apply (get_book_returns_listing (H := Sample.runtime)
           [Sample.bobs_book; Sample.legacy_book] Sample.legacy_book Sample.legacy_id).
  - reflexivity.
  - apply elem_of_cons. right. apply elem_of_cons. by left.
  - reflexivity.
  - exact I.
Defined.





(** ** Changing listings *)

Section Changing.
Context `{Runtime}.

(** X16: [update_book] and [delete_book] look the listing up before they
    look at the caller: an id that has not the length of an id makes both
    raise [InvalidId] (they have no handler for it, unlike [get_book]), and
    a well-formed id of no stored listing is answered by 404; the store
    stays as it is. *)
Theorem update_delete_without_listing book_id (current_user : dict) (st : App.state)
    title author price category condition description status image now :
  (String.length book_id <> 24%nat ->
   update_book book_id title author price category condition description status
     image current_user now st = (Raise InvalidId, st) /\
   delete_book book_id current_user st = (Raise InvalidId, st)) /\
  (forall oid, ObjectId book_id = Ok oid ->
   find_one (books_collection st) [IdEq oid] = None ->
   update_book book_id title author price category condition description status
     image current_user now st = (Raise not_found, st) /\
   delete_book book_id current_user st = (Raise not_found, st)).
Proof.
  split.
  - intros Hlen. unfold update_book, delete_book. run.
    by rewrite (ObjectId_wrong_length _ Hlen).
  - intros oid Hoid Hnone. unfold update_book, delete_book. run.
    by rewrite Hoid, Hnone.
Qed.





Lemma remove_first_subset (p : dict -> bool) (c : collection) (d : dict) :
  d ∈ remove_first p c -> d ∈ c.
Proof.
  induction c as [|d0 c IH]; [done|]. cbn [remove_first].
  destruct (p d0).
  - intros Hin. apply elem_of_cons. by right.
  - intros [->|Hin]%elem_of_cons; apply elem_of_cons; [by left|right; by apply IH].
Qed.

Lemma remove_first_other (p : dict -> bool) (c : collection) (d : dict) :
  d ∈ c -> p d = false -> d ∈ remove_first p c.
Proof.
  intros Hin Hp. induction c as [|d0 c IH]; [done|]. cbn [remove_first].
  apply elem_of_cons in Hin as [<-|Hin].
  - rewrite Hp. apply elem_of_cons. by left.
  - destruct (p d0); [done|]. apply elem_of_cons. right. by apply IH.
Qed.

Lemma existsb_remove_first (q p : dict -> bool) (c : collection) :
  existsb q c = false -> existsb q (remove_first p c) = false.
Proof.
  induction c as [|d0 c IH]; [done|]. cbn [existsb remove_first].
  intros [Hq Hc]%orb_false_iff. destruct (p d0); [done|].
  cbn [existsb]. by rewrite Hq, IH.
Qed.

Lemma well_formed_ids_remove_first (p : dict -> bool) (c : collection) :
  well_formed_ids c = true -> well_formed_ids (remove_first p c) = true.
Proof.
  induction c as [|d0 c IH]; [done|]. cbn [well_formed_ids remove_first].
  destruct (d0 !! "_id") as [[| | |h0| |]|] eqn:Hd0; try done.
  intros [[Hcan Hfresh%negb_true_iff]%andb_true_iff Hwf]%andb_true_iff.
  destruct (p d0); [done|]. cbn [well_formed_ids]. rewrite Hd0, Hcan.
  by rewrite (existsb_remove_first _ _ _ Hfresh), IH.
Qed.

(** X18: an authorized [delete_book] on a stored listing of a well-formed
    store removes that listing and nothing else: the store then holds
    exactly the listings of other ids, still well formed, the id is no
    longer found, and users and uploads are as they were (an uploaded image
    stays). *)
Theorem delete_book_removes_that_listing book_id oid (book current_user : dict)
    (st : App.state) :
  ObjectId book_id = Ok oid ->
  find_one (books_collection st) [IdEq oid] = Some book ->
  not_authorized book current_user = Ok false ->
  well_formed_ids (books_collection st) = true ->
  exists st' : App.state,
    delete_book book_id current_user st = (Ok "Book deleted successfully", st') /\
    find_one (books_collection st') [IdEq oid] = None /\
    (forall d : dict,
       d ∈ books_collection st' <->
       d ∈ books_collection st /\ d !! "_id" <> Some (VOid oid)) /\
    well_formed_ids (books_collection st') = true /\
    users_collection st' = users_collection st /\ uploads st' = uploads st.
Proof.
  intros Hoid Hbook Hauth Hwf.
  rewrite (delete_book_result book_id oid book current_user st Hoid Hbook), Hauth.
  eexists. split; [reflexivity|]. cbn [books_collection with_books].
  pose proof (delete_one_gone (books_collection st) oid Hwf) as Hgone.
  split; [exact Hgone|]. split; [|split; [|done]].
  - intros d. split.
    + intros Hin. split; [by eapply remove_first_subset|].
      intros Hid. unfold find_one in Hgone.
      pose proof (find_none _ _ Hgone d (proj1 (list_elem_of_In _ _) Hin)) as Hm.
      rewrite matches_IdEq in Hm. apply has_id_spec in Hid. congruence.
    + intros [Hin Hid]. apply remove_first_other; [done|].
      rewrite matches_IdEq. destruct (has_id oid d) eqn:Hh; [|done].
      by apply has_id_spec in Hh.
  - by apply well_formed_ids_remove_first.
Qed.

Lemma find_one_inserted (c : collection) (d : dict) h :
  existsb (has_id h) c = false -> d !! "_id" = Some (VOid h) ->
  find_one (c ++ [d]) [IdEq h] = Some d.
Proof.
  intros Hfresh Hd. unfold find_one. apply find_snoc_new.
  - induction c as [|d0 c IH]; [done|]. cbn [existsb List.find] in *.
    apply orb_false_iff in Hfresh as [Hd0 Hc]. rewrite matches_IdEq, Hd0.
    by apply IH.
  - rewrite matches_IdEq. by apply has_id_spec.
Qed.

(** X19: for an identity that carries [id], [email] and [name] as
    strings, the listing that [upload_book] returns is found by [get_book]
    under the new id, and what [get_book] returns agrees with it on every
    field other than [created_at]: the listing is stored with the seller's
    id, is found, and, having the canonical fields, passes the schema
    mapping untouched.  The store grows by this one listing, and a
    well-formed store stays well formed.  ([created_at] is left out: the
    store keeps a date to the millisecond, and what [upload_book] returns
    carries the reading of the clock.) *)
Theorem upload_book_then_get_book title author price category condition
    description isbn (current_user : dict) now new_id (st : App.state)
    (i e n : string) :
  current_user !! "id" = Some (VStr i) -> current_user !! "email" = Some (VStr e) ->
  current_user !! "name" = Some (VStr n) ->
  canonical new_id = true ->
  existsb (has_id new_id) (books_collection st) = false ->
  exists (book found : dict) (st' : App.state),
    upload_book title author price category condition description isbn None
      current_user now new_id st = (Ok book, st') /\
    get_book (books_collection st') new_id = Ok found /\
    (forall k, k <> "created_at" -> found !! k = book !! k) /\
    book !! "_id" = Some (VStr new_id) /\
    book !! "title" = Some (VStr title) /\
    book !! "sellerId" = Some (VStr i) /\
    length (books_collection st') = S (length (books_collection st)) /\
    (well_formed_ids (books_collection st) = true ->
     well_formed_ids (books_collection st') = true).
Proof.
  intros Hi He Hn Hcan Hfresh. unfold upload_book, getitem, insert_one. run.
  rewrite Hi, He, Hn, Hfresh. cbn [str]. eexists _, _, _. split; [reflexivity|].
  cbn [books_collection with_books].
  set (stored := <["created_at" := VDate now]> _).
  assert (Hid : (<["_id" := VOid new_id]> stored : dict) !! "_id" = Some (VOid new_id))
    by apply lookup_insert_eq.
  split; [|split; [done|split; [by rewrite lookup_insert_eq|split; [|split; [|split]]]]].
  - unfold get_book, get_book_body. rewrite (ObjectId_canonical _ Hcan).
    cbn [mbind result_bind].
    rewrite (find_one_inserted _ _ _ Hfresh Hid).
    unfold stringify_id, getitem. rewrite Hid. cbn [mbind result_bind str].
    rewrite insert_insert_eq.
    rewrite map_old_schema_one_noop; [done| | |].
    + exists (VStr title). unfold stored.
      by rewrite !lookup_insert_ne, lookup_insert_eq by done.
    + exists (VStr author). unfold stored.
      by rewrite !lookup_insert_ne, lookup_insert_eq by done.
    + unfold stored. by rewrite !lookup_insert_ne, lookup_insert_eq by done.
  - unfold stored. by rewrite !lookup_insert_ne, lookup_insert_eq by done.
  - unfold stored. by rewrite !lookup_insert_ne, lookup_insert_eq by done.
  - rewrite length_app. cbn [length]. lia.
  - intros Hwf. by eapply well_formed_ids_snoc.
Qed.

End Changing.

(** The ids "xyz" and Ann's, neither of which is a listing's. *)
Lemma update_delete_without_listing_witness :
  delete_book (H := Sample.runtime) "xyz" More.bob_identity More.shop_with_bob
  = (Raise InvalidId, More.shop_with_bob) /\
  delete_book (H := Sample.runtime) Sample.ann_id More.bob_identity More.shop_with_bob
  = (Raise not_found, More.shop_with_bob).
Proof.
  split.
  - apply (update_delete_without_listing (H := Sample.runtime) "xyz" More.bob_identity
             More.shop_with_bob None None None None None None None None 0).
    discriminate.
  - apply (update_delete_without_listing (H := Sample.runtime) Sample.ann_id
             More.bob_identity More.shop_with_bob None None None None None None None
             None 0) with (oid := Sample.ann_id); reflexivity.
Defined.


(** Bob deletes his listing. *)
Lemma delete_book_removes_that_listing_witness :
  exists st' : App.state,
    delete_book (H := Sample.runtime) Sample.book_id More.bob_identity
      More.shop_with_bob = (Ok "Book deleted successfully", st') /\
    find_one (H := Sample.runtime) (books_collection st') [IdEq Sample.book_id] = None /\
    users_collection st' = [More.bob].
Proof.
  destruct (delete_book_removes_that_listing (H := Sample.runtime) Sample.book_id
              Sample.book_id Sample.bobs_book More.bob_identity More.shop_with_bob
              eq_refl eq_refl eq_refl eq_refl)
    as (st' & Hdel & Hgone & _ & _ & Husers & _).
  exists st'. split; [exact Hdel|]. split; [exact Hgone|exact Husers].
Defined.

(** An identity with [id] puts a listing into the shop and reads it back. *)
Lemma upload_book_then_get_book_witness :
  exists (book found : dict) (st' : App.state),
    upload_book (H := Sample.runtime) "Atlas" "Mercator" 12 "Maps" "good" None None
      None More.seller 30 Sample.legacy_id Sample.shop = (Ok book, st') /\
    get_book (H := Sample.runtime) (books_collection st') Sample.legacy_id = Ok found /\
    found !! "title" = Some (VStr "Atlas") /\
    found !! "sellerId" = Some (VStr Sample.bob_id).
Proof.
  destruct (upload_book_then_get_book (H := Sample.runtime) "Atlas" "Mercator" 12
              "Maps" "good" None None More.seller 30 Sample.legacy_id Sample.shop
              Sample.bob_id "bob@example.org" "Bob"
              eq_refl eq_refl eq_refl eq_refl eq_refl)
    as (book & found & st' & Hup & Hget & Hsame & _ & Htitle & Hseller & _).
  exists book, found, st'. split; [exact Hup|]. split; [exact Hget|].
  split.
  - rewrite (Hsame "title") by discriminate. exact Htitle.
  - rewrite (Hsame "sellerId") by discriminate. exact Hseller.
Defined.

(** ** The first version of the listing route *)

Section FirstVersion.
Context `{Runtime}.

Lemma find_all (c : collection) : find c [] = c.
Proof.
  unfold find. induction c as [|d c IH]; [done|]. cbn [List.filter matches forallb].
  by rewrite IH.
Qed.

(** X20: [get_books] of [main.py] returns the first ten documents of the
    collection, in order, each without its [_id] and otherwise as stored
    (legacy names included: this route maps no schema). *)
Theorem main_get_books_first_ten (c : collection) :
  length (Main.get_books c) = Nat.min 10 (length c) /\
  Forall (fun out : dict => out !! "_id" = None) (Main.get_books c) /\
  (forall i (out : dict), Main.get_books c !! i = Some out ->
     exists d : dict, c !! i = Some d /\ (i < 10)%nat /\
       forall k, k <> "_id" -> out !! k = d !! k).
Proof.
  unfold Main.get_books. rewrite find_all. unfold limit.
  change (10 =? 0) with false. change (Z.abs_nat 10) with 10%nat. cbv iota.
  split; [|split].
  - by rewrite length_map, length_take.
  - apply Forall_forall. intros out (d & -> & _)%list_elem_of_fmap.
    apply lookup_delete_eq.
  - intros i out Hout. rewrite list_lookup_fmap in Hout.
    destruct (take 10 c !! i) as [d|] eqn:Hd; [|done]. injection Hout as <-.
    apply lookup_take_Some in Hd as [Hd Hi]. exists d. split; [done|].
    split; [done|]. intros k Hk. by rewrite lookup_delete_ne.
Qed.

End FirstVersion.

(** ** More on ingestion *)

Section Rows.
Context `{Runtime}.

Lemma to_lower_not_upper c : is_upper (to_lower c) = false.
Proof. by destruct c as [[] [] [] [] [] [] [] []]. Qed.

Lemma string_forall_map (p : ascii -> bool) (f : ascii -> ascii) s :
  (forall c, p (f c) = true) -> string_forall p (string_map f s) = true.
Proof. intros Hf. induction s as [|c s IH]; [done|]. cbn. by rewrite Hf, IH. Qed.

Lemma string_forall_lstrip (p : ascii -> bool) s :
  string_forall p s = true -> string_forall p (lstrip s) = true.
Proof.
  induction s as [|c s IH]; [done|]. cbn [lstrip]. destruct (is_space c); [|done].
  cbn [string_forall]. intros [_ Hs]%andb_true_iff. by apply IH.
Qed.

Lemma string_forall_rstrip (p : ascii -> bool) s :
  string_forall p s = true -> string_forall p (rstrip s) = true.
Proof.
  induction s as [|c s IH]; [done|]. cbn [rstrip string_forall].
  intros [Hc Hs]%andb_true_iff. specialize (IH Hs).
  destruct (rstrip s) as [|c' t].
  - destruct (is_space c); [done|]. cbn [string_forall]. by rewrite Hc.
  - cbn [string_forall] in *. by rewrite Hc, IH.
Qed.

Lemma replace_space_tag s :
  string_forall (fun c => negb (is_upper c)) s = true ->
  string_forall tag_char (replace_space s) = true.
Proof.
  unfold replace_space.
  induction s as [|c s IH]; [done|]. cbn [string_forall string_map].
  intros [Hc Hs]%andb_true_iff. rewrite (IH Hs), andb_true_r.
  unfold tag_char. destruct (Ascii.eqb c " ") eqn:Hsp; [done|].
  by rewrite Hc, Hsp.
Qed.

(** X21: every document gets exactly one school tag, and it is
    normalized: no upper-case ASCII letter and no space is left in it; a
    sheet without a [School] column gives the tag "general". *)
Theorem school_tag_is_normalized source_name now (r : row) :
  exists tag,
    school_tags (attrs (make_document source_name now r)) = [tag] /\
    string_forall tag_char tag = true /\
    (r !! "School" = None -> tag = "general").
Proof.
  eexists. split; [reflexivity|]. split.
  - apply replace_space_tag. unfold strip.
    apply string_forall_rstrip, string_forall_lstrip. unfold lower.
    apply string_forall_map. intros c. by rewrite to_lower_not_upper.
  - unfold get. by intros ->.
Qed.

(** X22: a blank [Book Name] cell gives the title "N/A", the sentinel of
    [fillna]: the fallbacks, the column [Book_Name] and "No Title", are only
    for a sheet without a [Book Name] column. *)
Theorem blank_title_is_the_sentinel source_name now (r : row) :
  r !! "Book Name" = Some VNone ->
  map title (map (make_document source_name now) (fillna "N/A" [r])) = ["N/A"].
Proof.
  intros Hblank. unfold fillna. cbn [map].
  set (r' := _ <$> r).
  assert (Hr' : r' !! "Book Name" = Some (VStr "N/A")).
  { unfold r'. by rewrite lookup_fmap, Hblank. }
  unfold make_document. cbn [title]. unfold get. by rewrite Hr'.
Qed.

(** X23: a batch whose bulk insert fails costs that batch only, as one
    whose sheet cannot be read: the run goes on with the batches after it,
    from the inventory the failed insert left. *)
Theorem insert_failure_is_isolated (w : world) now
    (before after : list (string * string)) (bad : string * string) frame inv e
    (st : Ingestion.state) :
  read_excel w bad.1 = Ok frame -> frame <> [] ->
  insert_many w (inventory (run_batches w now before st))
    (map (make_document bad.2 now) (fillna "N/A" frame)) = (inv, Some e) ->
  run_batches w now (before ++ bad :: after) st =
  run_batches w now after
    (print (Failed bad.2 e)
       {| inventory := inv;
          stdout := stdout (print (Processing bad.2) (run_batches w now before st)) |}).
Proof.
  intros Hread Hrows Hins. rewrite run_batches_app.
  change (run_batches w now (bad :: after) ?s)
    with (run_batches w now after (run_full_ingestion w now bad.1 bad.2 s)).
  f_equal. unfold run_full_ingestion, ingest. rewrite Hread.
  destruct frame as [|r0 frame]; [done|]. cbn [fillna map] in *.
  cbn [print inventory]. by rewrite Hins.
Qed.

End Rows.

(** A sheet whose only row has a blank title, and [Book_Name] filled. *)
Lemma blank_title_is_the_sentinel_witness :
  map title
    (map (make_document (H := Sample.runtime) "katib.pk" 0)
       (fillna "N/A"
          [<["Book Name" := VNone]> (<["Book_Name" := VStr "Algebra I"]> ∅)]))
  = ["N/A"].
Proof.
  apply (blank_title_is_the_sentinel (H := Sample.runtime)). reflexivity.
Defined.

(** The script against a store that rejects the first insert. *)
Lemma insert_failure_is_isolated_witness :
  run_batches (H := Sample.runtime) More.read_only_world 0
    [("Katib books.xlsx", "katib.pk"); ("Tariq books.xlsx", "tariqbookstore.com")]
    Sample.nothing
  = run_batches (H := Sample.runtime) More.read_only_world 0
      [("Tariq books.xlsx", "tariqbookstore.com")]
      (print (Failed "katib.pk" (Exception "not writable"))
         {| inventory := [];
            stdout := stdout (print (Processing "katib.pk") Sample.nothing) |}).
Proof.
  apply (insert_failure_is_isolated (H := Sample.runtime) More.read_only_world 0 []
           [("Tariq books.xlsx", "tariqbookstore.com")]
           ("Katib books.xlsx", "katib.pk") [Sample.sindh_row] []
           (Exception "not writable") Sample.nothing); [reflexivity|done|reflexivity].
Defined.

(** Bob's listing through the first version of the route. *)
Lemma main_get_books_first_ten_witness :
  exists d : dict,
    [Sample.bobs_book] !! 0%nat = Some d /\ (0 < 10)%nat /\
    forall k, k <> "_id" -> delete "_id" Sample.bobs_book !! k = d !! k.
Proof.
  apply (main_get_books_first_ten (H := Sample.runtime) [Sample.bobs_book]).
  reflexivity.
Defined.

(** A row of a sheet without a [School] column. *)
Lemma school_tag_is_normalized_witness :
  school_tags (attrs (make_document (H := Sample.runtime) "katib.pk" 0 Sample.sindh_row))
  = ["general"].
Proof.
  destruct (school_tag_is_normalized (H := Sample.runtime) "katib.pk" 0
              Sample.sindh_row) as (tag & -> & _ & Hdefault).
  by rewrite (Hdefault eq_refl).
Defined.

(** ** Invariants of registration, and the owner check *)

Section Owners.
Context `{Runtime}.

(** X24: [register] keeps the two invariants of the users: with a
    canonical new id the collection stays well formed (object ids in
    canonical rendering, no two alike), and no stored user ever has a field
    [id]. *)
Theorem register_keeps_users_well_formed name email password role now salt new_id
    (st st' : App.state) resp :
  register name email password role now salt new_id st = (Ok resp, st') ->
  (canonical new_id = true -> well_formed_ids (users_collection st) = true ->
   well_formed_ids (users_collection st') = true) /\
  (no_id_field (users_collection st) -> no_id_field (users_collection st')).
Proof.
  intros Hreg. split.
  - by apply (register_well_formed _ _ _ _ _ _ _ _ _ _ Hreg).
  - by apply (register_no_id_field _ _ _ _ _ _ _ _ _ _ Hreg).
Qed.

(** X25: for an identity that carries [role] and [id], [delete_book] and
    [update_book] decide by the check "ownership or admin": the listing is
    deleted when the role is "admin" or the id is [str] of the listing's
    [sellerId], and else both answer 403 "Not authorized" and leave the
    store as it is. *)
Theorem owner_or_admin_decides book_id oid (book current_user : dict)
    (st : App.state) r i :
  ObjectId book_id = Ok oid ->
  find_one (books_collection st) [IdEq oid] = Some book ->
  current_user !! "role" = Some r -> current_user !! "id" = Some i ->
  delete_book book_id current_user st =
  (if eq_str r "admin" || eq_str i (str (get_none book "sellerId"))
   then (Ok "Book deleted successfully",
         with_books st (delete_one (books_collection st) [IdEq oid]))
   else (Raise (HTTPException 403 "Not authorized"), st)) /\
  (eq_str r "admin" || eq_str i (str (get_none book "sellerId")) = false ->
   forall title author price category condition description status image now,
     update_book book_id title author price category condition description status
       image current_user now st
     = (Raise (HTTPException 403 "Not authorized"), st)).
Proof.
  intros Hoid Hbook Hr Hi.
  pose proof (not_authorized_with_id book current_user r i Hi Hr) as Hna.
  split.
  - rewrite (delete_book_result book_id oid book current_user st Hoid Hbook), Hna.
    by destruct (eq_str r "admin"), (eq_str i _).
  - intros Hrefused t a p c cd ds s im nw.
    pose proof (update_book_refused book_id oid book current_user st t a p c cd ds s
                  im nw Hoid Hbook) as Hup.
    rewrite Hna in Hup.
    by destruct (eq_str r "admin"), (eq_str i _).
Qed.

End Owners.

(** Bob's registration in the shop. *)
Lemma register_keeps_users_well_formed_witness :
  well_formed_ids (users_collection More.shop_with_bob) = true /\
  no_id_field (users_collection More.shop_with_bob).
Proof.
  destruct (register_keeps_users_well_formed (H := Sample.runtime) "Bob"
              "bob@example.org" "hunter2" "admin" 0 "salt" Sample.bob_id Sample.shop
              More.shop_with_bob More.bob_response eq_refl) as [Hwf Hno].
  split; [by apply Hwf|]. apply Hno. constructor.
Defined.

(** A seller who is not an admin deletes his own listing; Ann's id on the
    same identity is refused. *)
Lemma owner_or_admin_decides_witness :
  delete_book (H := Sample.runtime) Sample.book_id More.seller Sample.shop
  = (Ok "Book deleted successfully", with_books Sample.shop []) /\
  delete_book (H := Sample.runtime) Sample.book_id
    (<["id" := VStr Sample.ann_id]> More.seller) Sample.shop
  = (Raise (HTTPException 403 "Not authorized"), Sample.shop).
Proof.
  split.
  - apply (owner_or_admin_decides (H := Sample.runtime) Sample.book_id Sample.book_id
             Sample.bobs_book More.seller Sample.shop (VStr "user")
             (VStr Sample.bob_id)); reflexivity.
  - apply (owner_or_admin_decides (H := Sample.runtime) Sample.book_id Sample.book_id
             Sample.bobs_book (<["id" := VStr Sample.ann_id]> More.seller) Sample.shop
             (VStr "user") (VStr Sample.ann_id)); reflexivity.
Defined.
